(** * Access layer of the expense tracker ([src/utils.ts])

    A shallow embedding of the TypeScript module, for the functions its
    specification makes claims about: [signUp], [getIdToken],
    [authedFetch], [requireUid], [fetchExpenses], [addExpense],
    [updateExpense] and [deleteExpense].

    - JavaScript values are an inductive type; numbers are IEEE binary64
      (Rocq's primitive [float]) and strings are sequences of code units
      below 256 ([string]). [String], [Number], [Boolean], [isNaN], [??]
      and [trim] follow ECMAScript, the conversions between numbers and
      strings included.
    - An [async] function is a state transformer on a [World] (the identity
      singleton, the browsing context, the log of requests sent to a
      backend, the document store) that returns a settled promise; [await]
      is the bind of that monad, [throw] a rejection.
    - The Firestore calls the module makes ([addDoc], [updateDoc], [getDocs]
      over [query], [where] and [orderBy]) act on a finite map of documents
      as the client library documents them; a backend may refuse a call
      ([firestoreFault]), which rejects the promise and changes nothing.
      [doc] cuts its path into segments and throws on a path that names no
      document, as the client does before any request.
    - [Headers] checks names and values and removes the white space around
      a value, as the Fetch standard has it; the log entry [Fetch] records
      the call of [fetch] with its arguments, and what the endpoint answers
      is the world's [httpServer]. *)

From Stdlib Require Import ZArith Floats Ascii String DecimalString.
From stdpp Require Import gmap strings list sorting.

Local Open Scope string_scope.
Local Open Scope Z_scope.

(** ** ECMAScript numbers and their conversions from and to strings *)

Module JsNumber.

(** The double nearest to [m * 10^e] (ties to even), for [0 <= m]. A
    negative exponent is a division: the quotient is taken with more than
    64 significant bits and a sticky bit, which rounds like the exact
    value. *)
Definition round_decimal (m e : Z) : float :=
  if m =? 0 then PrimFloat.zero
  else if 0 <=? e then SF2Prim (binary_normalize prec emax (m * 10 ^ e) 0 false)
  else
    let d := 10 ^ (- e) in
    let s := Z.max 0 (Z.log2 d + 66 - Z.log2 m) in
    let q := (m * 2 ^ s) / d in
    let r := (m * 2 ^ s) mod d in
    SF2Prim (binary_normalize prec emax
               (2 * q + (if r =? 0 then 0 else 1)) (- (s + 1)) false).

(** *** StringToNumber *)

Definition is_white_space (c : ascii) : bool :=
  let n := nat_of_ascii c in
  ((9 <=? n)%nat && (n <=? 13)%nat) || (n =? 32)%nat || (n =? 160)%nat.

Definition digit_of (radix : Z) (c : ascii) : option Z :=
  let n := Z.of_nat (nat_of_ascii c) in
  let v := if (48 <=? n) && (n <=? 57) then n - 48
           else if (97 <=? n) && (n <=? 122) then n - 87
           else if (65 <=? n) && (n <=? 90) then n - 55
           else 99 in
  if v <? radix then Some v else None.

(** The longest prefix of digits, as [(value, number of digits, rest)]. *)
Fixpoint take_digits (radix : Z) (l : list ascii) (acc : Z) (n : Z)
  : Z * Z * list ascii :=
  match l with
  | c :: l' =>
      match digit_of radix c with
      | Some v => take_digits radix l' (acc * radix + v) (n + 1)
      | None => (acc, n, l)
      end
  | [] => (acc, n, l)
  end.

Fixpoint drop_white_space (l : list ascii) : list ascii :=
  match l with
  | c :: l' => if is_white_space c then drop_white_space l' else l
  | [] => []
  end.

Definition trim_list (l : list ascii) : list ascii :=
  rev (drop_white_space (rev (drop_white_space l))).

Definition take_sign (l : list ascii) : bool * list ascii :=
  match l with
  | "+"%char :: l' => (false, l')
  | "-"%char :: l' => (true, l')
  | _ => (false, l)
  end.

(** NonDecimalIntegerLiteral: all of [l] are digits of the radix. *)
Definition non_decimal (radix : Z) (l : list ascii) : float :=
  match take_digits radix l 0 0 with
  | (v, n, []) => if 0 <? n then round_decimal v 0 else nan
  | _ => nan
  end.

(** ExponentPart, optional: the exponent and what follows it. *)
Definition exponent_part (l : list ascii) : option Z :=
  match l with
  | [] => Some 0
  | c :: l' =>
      if (Ascii.eqb c "e" || Ascii.eqb c "E")%bool then
        let '(neg, l'') := take_sign l' in
        match take_digits 10 l'' 0 0 with
        | (v, n, []) => if 0 <? n then Some (if neg then - v else v) else None
        | _ => None
        end
      else None
  end.

(** StrUnsignedDecimalLiteral. *)
Definition unsigned_decimal (l : list ascii) : float :=
  if decide (l = list_ascii_of_string "Infinity") then infinity
  else
    let '(ip, ni, l1) := take_digits 10 l 0 0 in
    let '(fp, nf, l2) :=
      match l1 with
      | "."%char :: l1' => take_digits 10 l1' 0 0
      | _ => (0, 0, l1)
      end in
    if ni + nf =? 0 then nan
    else
      match exponent_part l2 with
      | Some x => round_decimal (ip * 10 ^ nf + fp) (x - nf)
      | None => nan
      end.

Definition StringToNumber (s : string) : float :=
  match trim_list (list_ascii_of_string s) with
  | [] => PrimFloat.zero
  | "0"%char :: c :: l =>
      if (Ascii.eqb c "x" || Ascii.eqb c "X")%bool then non_decimal 16 l
      else if (Ascii.eqb c "o" || Ascii.eqb c "O")%bool then non_decimal 8 l
      else if (Ascii.eqb c "b" || Ascii.eqb c "B")%bool then non_decimal 2 l
      else unsigned_decimal ("0"%char :: c :: l)
  | l =>
      let '(neg, l') := take_sign l in
      let x := unsigned_decimal l' in
      if neg then (- x)%float else x
  end.

(** *** Number::toString, radix 10 *)

(** [10^n <= x] for the positive rational [x = p / q]. *)
Definition ge_pow10 (p q n : Z) : bool :=
  if 0 <=? n then 10 ^ n * q <=? p else q <=? p * 10 ^ (- n).

(** From an estimate [n], the [n] with [10^n <= p/q < 10^(n+1)]. *)
Fixpoint decimal_exponent (fuel : nat) (p q n : Z) : Z :=
  match fuel with
  | O => n
  | S fuel' =>
      if negb (ge_pow10 p q n) then decimal_exponent fuel' p q (n - 1)
      else if ge_pow10 p q (n + 1) then decimal_exponent fuel' p q (n + 1)
      else n
  end.

(** [floor (p/q / 10^j)]. *)
Definition scaled_floor (p q j : Z) : Z :=
  if 0 <=? j then p / (q * 10 ^ j) else (p * 10 ^ (- j)) / q.

(** Is [p/q] nearer to [lo * 10^j] than to [(lo+1) * 10^j]? *)
Definition nearer_lo (p q j lo : Z) : comparison :=
  if 0 <=? j then (2 * p ?= (2 * lo + 1) * 10 ^ j * q)
  else (2 * p * 10 ^ (- j) ?= (2 * lo + 1) * q).

(** The digits [s] and exponent [n] of step 5: the least [k] such that a
    [k]-digit [s] has [s * 10^(n-k)] round to [x]; of two, the nearer. *)
Fixpoint shortest (fuel : nat) (x : float) (p q n k : Z) : Z * Z :=
  match fuel with
  | O => (0, n)
  | S fuel' =>
      let j := n - k in
      let lo := scaled_floor p q j in
      let ok_lo := PrimFloat.eqb (round_decimal lo j) x in
      let ok_hi := PrimFloat.eqb (round_decimal (lo + 1) j) x in
      let pick :=
        if ok_lo && ok_hi then
          match nearer_lo p q j lo with
          | Lt => lo
          | Gt => lo + 1
          | Eq => if Z.even lo then lo else lo + 1
          end
        else if ok_lo then lo else lo + 1 in
      if ok_lo || ok_hi then
        if pick =? 10 ^ k then (10 ^ (k - 1), n + 1) else (pick, n)
      else shortest fuel' x p q n (k + 1)
  end.

Definition digits (z : Z) : string :=
  NilZero.string_of_uint (N.to_uint (Z.to_N z)).

Fixpoint zeros (n : nat) : string :=
  match n with
  | O => ""
  | S n' => String "0" (zeros n')
  end.

(** Steps 6 to 10: the layout of the digits [ds] of [s] for exponent [n]. *)
Definition layout (ds : string) (n : Z) : string :=
  let k := Z.of_nat (String.length ds) in
  if (k <=? n) && (n <=? 21) then ds ++ zeros (Z.to_nat (n - k))
  else if (0 <? n) && (n <=? 21) then
    substring 0 (Z.to_nat n) ds ++ "." ++ substring (Z.to_nat n) (Z.to_nat (k - n)) ds
  else if (-6 <? n) && (n <=? 0) then "0." ++ zeros (Z.to_nat (- n)) ++ ds
  else
    let e := n - 1 in
    let ex := (if e <? 0 then "-" else "+") ++ digits (Z.abs e) in
    if k =? 1 then ds ++ "e" ++ ex
    else substring 0 1 ds ++ "." ++ substring 1 (Z.to_nat (k - 1)) ds ++ "e" ++ ex.

Definition NumberToString (x : float) : string :=
  match Prim2SF x with
  | S754_nan => "NaN"
  | S754_zero _ => "0"
  | S754_infinity neg => if neg then "-Infinity" else "Infinity"
  | S754_finite neg m e =>
      let p := Z.pos m * 2 ^ Z.max e 0 in
      let q := 2 ^ Z.max (- e) 0 in
      let n0 := decimal_exponent 700 p q ((Z.log2 p - Z.log2 q) * 1233 / 4096) + 1 in
      let '(s, n) := shortest 17 (abs x) p q n0 1 in
      (if neg then "-" else "") ++ layout (digits s) n
  end.

End JsNumber.

(** ** JavaScript values: the primitives and Firestore's [Timestamp] *)

Module Js.

(** The values a field of an argument or of a stored document holds.
    [VTimestamp] is the client library's [Timestamp] object, the one
    non-primitive kind this module causes to be stored ([createdAt]). *)
Inductive Value : Type :=
| VUndefined
| VNull
| VBool (b : bool)
| VNum (x : float)
| VStr (s : string)
| VTimestamp (seconds nanoseconds : Z).

(** [Error] objects: [new Error(message)], with the [code] the identity
    and database services attach to theirs. *)
Record Error : Type := mkError {
  name : string;
  message : string;
  code : option string
}.

Definition new_Error (msg : string) : Error := mkError "Error" msg None.
Definition new_TypeError (msg : string) : Error := mkError "TypeError" msg None.
Definition new_ReferenceError (msg : string) : Error :=
  mkError "ReferenceError" msg None.

(** ToBoolean: [!!v], [if (v)]. *)
Definition Boolean (v : Value) : bool :=
  match v with
  | VUndefined | VNull => false
  | VBool b => b
  | VNum x => negb (PrimFloat.eqb x 0 || PrimFloat.is_nan x)
  | VStr s => negb (String.eqb s "")
  | VTimestamp _ _ => true
  end.

Definition signed_digits (z : Z) : string :=
  (if z <? 0 then "-" else "") ++ JsNumber.digits (Z.abs z).

(** [s.padStart(n, '0')]. *)
Definition padStart (n : nat) (s : string) : string :=
  JsNumber.zeros (n - String.length s) ++ s.

(** [Timestamp.prototype.toString] and [valueOf] of the client library. *)
Definition MIN_SECONDS : Z := -62135596800.

Definition Timestamp_toString (seconds nanoseconds : Z) : string :=
  "Timestamp(seconds=" ++ signed_digits seconds
    ++ ", nanoseconds=" ++ signed_digits nanoseconds ++ ")".

Definition Timestamp_valueOf (seconds nanoseconds : Z) : string :=
  padStart 12 (signed_digits (seconds - MIN_SECONDS))
    ++ "." ++ padStart 9 (signed_digits nanoseconds).

(** [String(v)]. *)
Definition String (v : Value) : string :=
  match v with
  | VUndefined => "undefined"
  | VNull => "null"
  | VBool b => if b then "true" else "false"
  | VNum x => JsNumber.NumberToString x
  | VStr s => s
  | VTimestamp sec ns => Timestamp_toString sec ns
  end.

(** [Number(v)]. *)
Definition Number (v : Value) : float :=
  match v with
  | VUndefined => nan
  | VNull => 0
  | VBool b => if b then 1 else 0
  | VNum x => x
  | VStr s => JsNumber.StringToNumber s
  | VTimestamp sec ns => JsNumber.StringToNumber (Timestamp_valueOf sec ns)
  end.

(** [isNaN(x)] on a number. *)
Definition isNaN (x : float) : bool := PrimFloat.is_nan x.

(** [a ?? b]. *)
Definition nullish (a b : Value) : Value :=
  match a with
  | VUndefined | VNull => b
  | _ => a
  end.

(** [v !== undefined]. *)
Definition defined (v : Value) : bool :=
  match v with
  | VUndefined => false
  | _ => true
  end.

(** [String.prototype.trim]. *)
Definition trim (s : string) : string :=
  string_of_list_ascii (JsNumber.trim_list (list_ascii_of_string s)).

(** [v.trim()]: the method exists on strings only. *)
Definition call_trim (v : Value) : Error + string :=
  match v with
  | VStr s => inr (trim s)
  | VUndefined | VNull =>
      inl (new_TypeError "Cannot read properties of undefined (reading 'trim')")
  | _ => inl (new_TypeError "expense.description.trim is not a function")
  end.

End Js.

(** ** The Firestore client: documents, queries and writes

    The behaviour of the library the module relies on: an equality filter
    keeps the documents whose field equals the value; an [orderBy] keeps
    the documents that have the field and orders them by it, documents
    with equal values by identifier in the same direction; [addDoc] stores
    under a generated identifier; [updateDoc] overwrites the given fields
    of an existing document and fails on a missing one. Field values are
    the scalar kinds above. *)

Module Firestore.
Import Js.

(** A collection is addressed by its path ([collection(db, "users", uid,
    "expenses")]) and maps document identifiers to field maps. *)
Abbreviation DocumentData := (gmap string Value).
Abbreviation Database := (gmap (list string) (gmap string (gmap string Value))).

(** *** Paths

    A path is cut at its slashes, empty pieces dropped
    ([path.split('/').filter(segment => segment.length > 0)]); a path with
    two slashes in a row is refused. *)
Fixpoint split_at_slash (l cur : list ascii) : list string :=
  match l with
  | [] =>
      match cur with
      | [] => []
      | _ => [string_of_list_ascii (rev cur)]
      end
  | c :: l' =>
      if Ascii.eqb c "/" then
        match cur with
        | [] => split_at_slash l' []
        | _ => string_of_list_ascii (rev cur) :: split_at_slash l' []
        end
      else split_at_slash l' (c :: cur)
  end.

Definition split_path (path : string) : list string :=
  split_at_slash (list_ascii_of_string path) [].

(** [path.indexOf('//') >= 0]. *)
Fixpoint double_slash (l : list ascii) : bool :=
  match l with
  | c :: l' =>
      (Ascii.eqb c "/" && match l' with
                          | c' :: _ => Ascii.eqb c' "/"
                          | [] => false
                          end)
      || double_slash l'
  | [] => false
  end.

Fixpoint join_path (segments : list string) : string :=
  match segments with
  | [] => ""
  | [s] => s
  | s :: rest => s ++ "/" ++ join_path rest
  end.

(** One segment of a path: not empty, no slash. The identifiers the
    services issue (a user's [uid], the identifier [addDoc] generates) are
    segments, and so is the name of every document. *)
Definition is_segment (s : string) : bool :=
  negb (String.eqb s "")
  && forallb (fun c => negb (Ascii.eqb c "/")) (list_ascii_of_string s).

Record Segment : Type := mkSegment {
  segment_string : string;
  segment_ok : is_segment segment_string = true
}.

(** [s] as a segment when it is one, [d] otherwise. *)
Definition segment_or (d : Segment) (s : string) : Segment :=
  match is_segment s as b return is_segment s = b -> Segment with
  | true => fun ok => mkSegment s ok
  | false => fun _ => d
  end eq_refl.

Definition invalid_argument (msg : string) : Error :=
  mkError "FirebaseError" msg (Some "invalid-argument").

Record DocumentReference : Type := mkRef {
  parent : list string;
  id : string
}.

#[global] Instance DocumentReference_eq_dec : EqDecision DocumentReference.
Proof. solve_decision. Defined.

Definition collection (segments : list string) : list string := segments.

(** [doc(db, path, ...pathSegments)]: the components are cut into
    segments; the last segment names the document, the others its
    collection. It throws when the first component is empty, when a
    component has two slashes in a row, and when the number of segments is
    odd. *)
Definition doc (components : list string) : Error + DocumentReference :=
  match components with
  | [] => inl (invalid_argument "Function doc() cannot be called with an empty path.")
  | path :: _ =>
      if String.eqb path "" then
        inl (invalid_argument "Function doc() cannot be called with an empty path.")
      else
        match find (fun c => double_slash (list_ascii_of_string c)) components with
        | Some c =>
            inl (invalid_argument
                   ("Invalid segment (" ++ c ++ "). Paths must not contain // in them."))
        | None =>
            let segments := concat (map split_path components) in
            if Nat.even (length segments) then
              inr (mkRef (removelast segments) (List.last segments ""))
            else
              inl (invalid_argument
                     ("Invalid document reference. Document references must have an even number of segments, but "
                        ++ join_path segments ++ " has "
                        ++ JsNumber.digits (Z.of_nat (length segments)) ++ "."))
        end
  end.

(** The map kept for a collection, and the documents in it: the entries
    whose key is a segment (no other key names a document). *)
Definition raw_documents (db : Database) (col : list string)
  : gmap string (gmap string Value) :=
  default ∅ (db !! col).

Definition documents (db : Database) (col : list string) : gmap string (gmap string Value) :=
  filter (fun kv => is_segment kv.1 = true) (raw_documents db col).

(** [x.f] on the object [d.data()] returns. *)
Definition field (f : string) (d : DocumentData) : Value :=
  default VUndefined (d !! f).

(** *** The order of values

    Values of different kinds are ordered by kind (null, booleans,
    numbers, timestamps, strings); numbers by value with NaN first and
    the two zeros equal, strings by code unit. *)
Definition number_key (x : float) : Z :=
  match Prim2SF x with
  | S754_nan => - 2 ^ 2200
  | S754_zero _ => 0
  | S754_infinity neg => if neg then - 2 ^ 2100 else 2 ^ 2100
  | S754_finite neg m e =>
      let k := Z.pos m * 2 ^ (e + 1074) in if neg then - k else k
  end.

Definition value_key (v : Value) : Z * Z * Z * string :=
  match v with
  | VUndefined => (0, 0, 0, "")
  | VNull => (1, 0, 0, "")
  | VBool b => (2, Z.b2z b, 0, "")
  | VNum x => (3, number_key x, 0, "")
  | VTimestamp sec ns => (4, sec, ns, "")
  | VStr s => (5, 0, 0, s)
  end.

Definition lex (c1 c2 : comparison) : comparison :=
  match c1 with
  | Eq => c2
  | _ => c1
  end.

Definition value_compare (a b : Value) : comparison :=
  let '(ta, ka, la, sa) := value_key a in
  let '(tb, kb, lb, sb) := value_key b in
  lex (ta ?= tb) (lex (ka ?= kb) (lex (la ?= lb) (String.compare sa sb))).

(** *** Queries *)

Inductive QueryConstraint : Type :=
| where_eq (fieldPath : string) (value : Value)
| orderBy (fieldPath : string) (desc : bool).

Record Query : Type := mkQuery {
  q_collection : list string;
  q_constraints : list QueryConstraint
}.

Definition query (col : list string) (cs : list QueryConstraint) : Query :=
  mkQuery col cs.

Record QueryDocumentSnapshot : Type := mkSnapshot {
  snap_id : string;
  data : DocumentData
}.

(** An equality filter wants the field equal to the value; an ordering
    wants the field to exist. *)
Definition satisfies (d : DocumentData) (c : QueryConstraint) : bool :=
  match c with
  | where_eq f v =>
      match d !! f with
      | Some v' => bool_decide (value_compare v' v = Eq)
      | None => false
      end
  | orderBy f _ => bool_decide (is_Some (d !! f))
  end.

Definition orderings (cs : list QueryConstraint) : list (string * bool) :=
  omap (fun c => match c with
                 | orderBy f desc => Some (f, desc)
                 | where_eq _ _ => None
                 end) cs.

Definition directed (desc : bool) (c : comparison) : comparison :=
  if desc then CompOpp c else c.

(** Documents compare by the orderings in turn, then by identifier in
    the direction of the last ordering. *)
Fixpoint order_compare (os : list (string * bool)) (last_desc : bool)
    (a b : QueryDocumentSnapshot) : comparison :=
  match os with
  | [] => directed last_desc (String.compare (snap_id a) (snap_id b))
  | (f, desc) :: os' =>
      lex (directed desc (value_compare (field f (data a)) (field f (data b))))
          (order_compare os' desc a b)
  end.

Definition precedes (q : Query) (a b : QueryDocumentSnapshot) : Prop :=
  order_compare (orderings (q_constraints q)) false a b <> Gt.

#[global] Instance precedes_dec q a b : Decision (precedes q a b).
Proof. unfold precedes. apply _. Defined.

Definition matching (db : Database) (q : Query) : list QueryDocumentSnapshot :=
  filter (fun d => forallb (satisfies (data d)) (q_constraints q))
    (map (fun p => mkSnapshot p.1 p.2) (map_to_list (documents db (q_collection q)))).

(** What [getDocs(q)] reads: [snap.docs]. *)
Definition run_query (db : Database) (q : Query) : list QueryDocumentSnapshot :=
  merge_sort (precedes q) (matching db q).

(** *** Writes *)

(** A value handed to a write: a plain value, or the [serverTimestamp()]
    sentinel the server replaces by its clock. *)
Inductive FieldValue : Type :=
| plain (v : Value)
| serverTimestamp.

Definition resolve (now : Z * Z) (v : FieldValue) : Value :=
  match v with
  | plain v => v
  | serverTimestamp => VTimestamp now.1 now.2
  end.

Definition put (db : Database) (ref : DocumentReference) (d : DocumentData) : Database :=
  <[parent ref := <[id ref := d]> (raw_documents db (parent ref))]> db.

Definition read (db : Database) (ref : DocumentReference) : option DocumentData :=
  documents db (parent ref) !! id ref.

(** [updateDoc] writes the given fields over the stored ones. *)
Definition merge_fields (body old : DocumentData) : DocumentData := body ∪ old.

Definition FirebaseError (code msg : string) : Error :=
  mkError "FirebaseError" msg (Some code).

Definition not_found : Error :=
  FirebaseError "not-found" "No document to update".

End Firestore.

Coercion Firestore.segment_string : Firestore.Segment >-> string.

(** ** Settled promises, the world, and [async] functions *)

Inductive Outcome (A : Type) : Type :=
| Fulfilled (a : A)
| Rejected (e : Js.Error).

Arguments Fulfilled {A} a.
Arguments Rejected {A} e.

(** The identity service's [User]; [getIdToken(forceRefresh)] is its
    method. The [uid] the service issues is one path segment. *)
Record User : Type := mkUser {
  uid : Firestore.Segment;
  user_getIdToken : bool -> Outcome string
}.

Record UserCredential : Type := mkCredential { user : User }.

(** [window.location]: its host name and the URLs passed to [assign]. *)
Record Window : Type := mkWindow {
  hostname : string;
  assigned : list string
}.

Record RequestInit : Type := mkInit {
  init_method : option string;
  init_headers : option (list (string * string));
  init_body : option string
}.

Record HttpRequest : Type := mkHttpRequest {
  url : string;
  method : option string;
  headers : gmap string string;
  body : option string
}.

Record Response : Type := mkResponse {
  status : Z;
  text : string
}.

(** The calls made to a backend: to the identity service, to the database,
    and [fetch(input, init)] with the headers it is given. *)
Inductive Request : Type :=
| CreateUser (email password : string)
| GetDocs (q : Firestore.Query)
| AddDoc (col : list string) (payload : gmap string Firestore.FieldValue)
| UpdateDoc (ref : Firestore.DocumentReference) (fields : gmap string Js.Value)
| Fetch (req : HttpRequest).

Record World : Type := mkWorld {
  (** the client *)
  currentUser : option User;
  window : option Window;
  requests : list Request;
  (** the document database *)
  database : gmap (list string) (gmap string (gmap string Js.Value));
  firestoreFault : option (string * string);
  autoIds : nat -> Firestore.Segment;
  added : nat;
  serverTime : Z * Z;
  (** the identity service and the HTTP endpoints *)
  createUser : string -> string -> Outcome UserCredential;
  httpServer : HttpRequest -> Outcome Response
}.

Definition set_currentUser (u : option User) (w : World) : World :=
  mkWorld u (window w) (requests w) (database w) (firestoreFault w)
    (autoIds w) (added w) (serverTime w) (createUser w) (httpServer w).

Definition set_window (win : option Window) (w : World) : World :=
  mkWorld (currentUser w) win (requests w) (database w) (firestoreFault w)
    (autoIds w) (added w) (serverTime w) (createUser w) (httpServer w).

Definition send (r : Request) (w : World) : World :=
  mkWorld (currentUser w) (window w) (requests w ++ [r]) (database w)
    (firestoreFault w) (autoIds w) (added w) (serverTime w) (createUser w)
    (httpServer w).

Definition set_database (db : gmap (list string) (gmap string (gmap string Js.Value)))
    (w : World) : World :=
  mkWorld (currentUser w) (window w) (requests w) db (firestoreFault w)
    (autoIds w) (added w) (serverTime w) (createUser w) (httpServer w).

Definition next_autoId (w : World) : World :=
  mkWorld (currentUser w) (window w) (requests w) (database w)
    (firestoreFault w) (autoIds w) (S (added w)) (serverTime w) (createUser w)
    (httpServer w).

(** An [async] function: from the world it starts in to its settled
    promise and the world it leaves. *)
Definition Async (A : Type) : Type := World -> Outcome A * World.

Definition ret {A} (a : A) : Async A := fun w => (Fulfilled a, w).

Definition throw {A} (e : Js.Error) : Async A := fun w => (Rejected e, w).

Definition bind {A B} (m : Async A) (k : A -> Async B) : Async B :=
  fun w =>
    match m w with
    | (Fulfilled a, w') => k a w'
    | (Rejected e, w') => (Rejected e, w')
    end.

Definition try_catch {A} (m : Async A) (handler : Js.Error -> Async A) : Async A :=
  fun w =>
    match m w with
    | (Fulfilled a, w') => (Fulfilled a, w')
    | (Rejected e, w') => handler e w'
    end.

Definition settle {A} (o : Outcome A) : Async A := fun w => (o, w).

(** A call that returns or throws. *)
Definition call {A} (r : Js.Error + A) : Async A :=
  fun w =>
    (match r with
     | inr a => Fulfilled a
     | inl e => Rejected e
     end, w).

Definition get {A} (f : World -> A) : Async A := fun w => (Fulfilled (f w), w).

Definition modify (f : World -> World) : Async unit := fun w => (Fulfilled tt, f w).

Declare Scope async_scope.
Delimit Scope async_scope with async.
Notation "x <- m ;; k" := (bind m (fun x => k))
  (at level 100, m at next level, right associativity) : async_scope.
Notation "m ;;; k" := (bind m (fun _ => k))
  (at level 100, right associativity) : async_scope.
Notation "'when' b 'then' m ;;; k" := (bind (if b then m else ret tt) (fun _ => k))
  (at level 100, b at next level, m at next level, right associativity) : async_scope.
Local Open Scope async_scope.

(** *** The Firestore calls as effects *)

Definition firestore_call (r : Request) : Async unit :=
  modify (send r) ;;;
  fault <- get firestoreFault ;;
  match fault with
  | Some (c, m) => throw (Firestore.FirebaseError c m)
  | None => ret tt
  end.

Definition getDocs (q : Firestore.Query) : Async (list Firestore.QueryDocumentSnapshot) :=
  firestore_call (GetDocs q) ;;;
  db <- get database ;;
  ret (Firestore.run_query db q).

Definition addDoc (col : list string) (payload : gmap string Firestore.FieldValue)
  : Async Firestore.DocumentReference :=
  firestore_call (AddDoc col payload) ;;;
  w <- get (fun w => w) ;;
  let ref := Firestore.mkRef col (autoIds w (added w)) in
  modify next_autoId ;;;
  modify (set_database
            (Firestore.put (database w) ref (Firestore.resolve (serverTime w) <$> payload))) ;;;
  ret ref.

Definition updateDoc (ref : Firestore.DocumentReference) (fields : gmap string Js.Value)
  : Async unit :=
  firestore_call (UpdateDoc ref fields) ;;;
  db <- get database ;;
  match Firestore.read db ref with
  | Some old => modify (set_database (Firestore.put db ref (Firestore.merge_fields fields old)))
  | None => throw Firestore.not_found
  end.

(** ** The module [utils.ts] *)

(** Modelled from the spec: [types.ts] is not among the sources; the spec's
    data model gives [Expense] as [{ id: string, description: string,
    date: string, cost: number, deleted: boolean }]. *)
Record Expense : Type := mkExpense {
  id : string;
  description : string;
  date : string;
  cost : float;
  deleted : bool
}.

(** Modelled from the spec: the argument types [Omit<Expense, "id">],
    [Partial<Expense>] and [TempEdit] come from the missing [types.ts]. The
    functions read the argument at four properties and convert what they
    find, so an argument is the four values read ([VUndefined] for a
    property that is absent). *)
Record ExpenseArg : Type := mkArg {
  arg_description : Js.Value;
  arg_date : Js.Value;
  arg_cost : Js.Value;
  arg_deleted : Js.Value
}.

(** *** Identity *)

Definition isLocal (w : World) : bool :=
  match window w with
  | Some win => String.eqb (hostname win) "localhost"
  | None => false
  end.

(** An object is truthy. *)
Definition truthy_object {A} (_ : A) : bool := true.

Definition createUserWithEmailAndPassword (email password : string)
  : Async UserCredential :=
  modify (send (CreateUser email password)) ;;;
  svc <- get createUser ;;
  cred <- settle (svc email password) ;;
  modify (set_currentUser (Some (user cred))) ;;;
  ret cred.

Section Seeding.

(** [seedExpensesIfEmpty] of [./dev/seed], which is not among the
    sources: any [async] function of a user identifier and a count. *)
Variable seedExpensesIfEmpty : string -> Z -> Async unit.

Definition signUp (email password : string) (seed : bool) : Async User :=
  try_catch
    (cred <- createUserWithEmailAndPassword email password ;;
     local <- get isLocal ;;
     when local && truthy_object cred && seed
       then seedExpensesIfEmpty (uid (user cred)) 100 ;;;
     if truthy_object cred then ret (user cred)
     else throw (Js.new_Error "Signup not implemented"))
    (fun error => throw error).

End Seeding.

Definition getIdToken (forceRefresh : bool) : Async (option string) :=
  u <- get currentUser ;;
  match u with
  | None => ret None
  | Some usr => token <- settle (user_getIdToken usr forceRefresh) ;; ret (Some token)
  end.

(** *** Authenticated fetch *)

Definition lower (c : ascii) : ascii :=
  let n := nat_of_ascii c in
  if ((65 <=? n) && (n <=? 90))%nat then ascii_of_nat (n + 32) else c.

Fixpoint lowercase (s : string) : string :=
  match s with
  | EmptyString => EmptyString
  | String c s' => String (lower c) (lowercase s')
  end.

(** [Headers], by what [get] returns for each name. Names are
    case-insensitive and must be tokens; a value has the white space at its
    ends removed and must then hold no NUL, line feed or carriage return;
    otherwise the operation throws a [TypeError] (the message is the
    engine's). [append] joins the values of a repeated name, [set] replaces
    them. *)
Definition is_tchar (c : ascii) : bool :=
  let n := nat_of_ascii c in
  (((48 <=? n) && (n <=? 57)) || ((65 <=? n) && (n <=? 90))
   || ((97 <=? n) && (n <=? 122))
   || existsb (Nat.eqb n) [33; 35; 36; 37; 38; 39; 42; 43; 45; 46; 94; 95; 96; 124; 126])%nat.

Definition is_header_name (name : string) : bool :=
  negb (String.eqb name "") && forallb is_tchar (list_ascii_of_string name).

Definition is_http_white_space (c : ascii) : bool :=
  existsb (Nat.eqb (nat_of_ascii c)) [9; 10; 13; 32]%nat.

Fixpoint drop_http_white_space (l : list ascii) : list ascii :=
  match l with
  | c :: l' => if is_http_white_space c then drop_http_white_space l' else l
  | [] => []
  end.

Definition normalize_value (value : string) : string :=
  string_of_list_ascii
    (rev (drop_http_white_space (rev (drop_http_white_space (list_ascii_of_string value))))).

Definition is_header_value (value : string) : bool :=
  String.eqb (normalize_value value) value
  && forallb (fun c => negb (existsb (Nat.eqb (nat_of_ascii c)) [0; 10; 13]%nat))
       (list_ascii_of_string value).

Definition validate_header (name value : string) : Js.Error + unit :=
  if negb (is_header_name name) then inl (Js.new_TypeError "Invalid name")
  else if negb (is_header_value value) then inl (Js.new_TypeError "Invalid value")
  else inr tt.

Definition Headers_append (h : gmap string string) (nv : string * string)
  : Js.Error + gmap string string :=
  let value := normalize_value nv.2 in
  match validate_header nv.1 value with
  | inl e => inl e
  | inr _ =>
      let n := lowercase nv.1 in
      match h !! n with
      | Some v => inr (<[n := v ++ ", " ++ value]> h)
      | None => inr (<[n := value]> h)
      end
  end.

Fixpoint Headers_fill (h : gmap string string) (init : list (string * string))
  : Js.Error + gmap string string :=
  match init with
  | [] => inr h
  | nv :: rest =>
      match Headers_append h nv with
      | inl e => inl e
      | inr h' => Headers_fill h' rest
      end
  end.

Definition new_Headers (init : list (string * string)) : Js.Error + gmap string string :=
  Headers_fill ∅ init.

Definition Headers_set (name value : string) (h : gmap string string)
  : Js.Error + gmap string string :=
  let value := normalize_value value in
  match validate_header name value with
  | inl e => inl e
  | inr _ => inr (<[lowercase name := value]> h)
  end.

Definition fetch (input : string) (init : RequestInit) (hs : gmap string string)
  : Async Response :=
  let req := mkHttpRequest input (init_method init) hs (init_body init) in
  modify (send (Fetch req)) ;;;
  srv <- get httpServer ;;
  settle (srv req).

(** [window.location.assign(url)]; without a [window] the reference throws. *)
Definition location_assign (target : string) : Async unit :=
  win <- get window ;;
  match win with
  | Some l => modify (set_window (Some (mkWindow (hostname l) (assigned l ++ [target]))))
  | None => throw (Js.new_ReferenceError "window is not defined")
  end.

Definition authedFetch (input : string) (init : RequestInit) : Async Response :=
  hs <- call (new_Headers (default [] (init_headers init))) ;;
  token <- getIdToken false ;;
  hs <- match token with
        | Some t =>
            if Js.Boolean (Js.VStr t)
            then call (Headers_set "Authorization" ("Bearer " ++ t) hs)
            else ret hs
        | None => ret hs
        end ;;
  res <- fetch input init hs ;;
  if status res =? 401 then
    location_assign "/signin" ;;;
    throw (Js.new_Error "Unauthorized")
  else ret res.

(** *** Expense CRUD *)

Definition requireUid : Async string :=
  u <- get currentUser ;;
  match u with
  | Some usr =>
      if negb (Js.Boolean (Js.VStr (uid usr))) then throw (Js.new_Error "Not signed in")
      else ret (uid usr : string)
  | None => throw (Js.new_Error "Not signed in")
  end.

Definition expensesCol (uid : string) : list string :=
  Firestore.collection ["users"; uid; "expenses"].

Definition to_Expense (d : Firestore.QueryDocumentSnapshot) : Expense :=
  let x := Firestore.data d in
  {| id := Firestore.snap_id d;
     description := Js.String (Js.nullish (Firestore.field "description" x) (Js.VStr ""));
     date := Js.String (Js.nullish (Firestore.field "date" x) (Js.VStr ""));
     cost := Js.Number (Js.nullish (Firestore.field "cost" x) (Js.VNum 0));
     deleted := Js.Boolean (Js.nullish (Firestore.field "deleted" x) (Js.VBool false)) |}.

Definition fetchExpenses : Async (list Expense) :=
  uid <- requireUid ;;
  let q :=
    Firestore.query (expensesCol uid)
      [Firestore.where_eq "deleted" (Js.VBool false); Firestore.orderBy "date" true] in
  snap <- getDocs q ;;
  let list := map to_Expense snap in
  ret list.

Definition addExpense (expense : ExpenseArg) : Async unit :=
  try_catch
    (uid <- requireUid ;;
     when negb (Js.Boolean (arg_description expense))
       then throw (Js.new_Error "Description is required") ;;;
     when Js.isNaN (Js.Number (arg_cost expense))
          || (Js.Number (arg_cost expense) <? 0)%float
       then throw (Js.new_Error "Enter a valid non-negative cost") ;;;
     trimmed <- settle (match Js.call_trim (arg_description expense) with
                        | inr t => Fulfilled t
                        | inl e => Rejected e
                        end) ;;
     let payload : gmap string Firestore.FieldValue :=
       <["description" := Firestore.plain (Js.VStr trimmed)]>
       (<["date" := Firestore.plain (Js.VStr (Js.String (arg_date expense)))]>
       (<["cost" := Firestore.plain (Js.VNum (Js.Number (arg_cost expense)))]>
       (<["deleted" := Firestore.plain (Js.VBool false)]>
       (<["createdAt" := Firestore.serverTimestamp]> ∅)))) in
     addDoc (expensesCol uid) payload ;;;
     ret tt)
    (fun error => throw error).

Definition assign_if (present : bool) (f : string) (v : Js.Value)
    (body : gmap string Js.Value) : gmap string Js.Value :=
  if present then <[f := v]> body else body.

Definition updateExpense (id : Js.Value) (next : ExpenseArg) : Async unit :=
  uid <- requireUid ;;
  ref <- call (Firestore.doc ["users"; uid; "expenses"; Js.String id]) ;;
  let body : gmap string Js.Value := ∅ in
  let body := assign_if (Js.defined (arg_description next)) "description"
                (arg_description next) body in
  let body := assign_if (Js.defined (arg_date next)) "date" (arg_date next) body in
  let body := assign_if (Js.defined (arg_cost next)) "cost"
                (Js.VNum (Js.Number (arg_cost next))) body in
  let body := assign_if (Js.defined (arg_deleted next)) "deleted"
                (Js.VBool (Js.Boolean (arg_deleted next))) body in
  updateDoc ref body.

Definition deleteExpense (id : Js.Value) : Async unit :=
  uid <- requireUid ;;
  ref <- call (Firestore.doc ["users"; uid; "expenses"; Js.String id]) ;;
  updateDoc ref {[ "deleted" := Js.VBool true ]}.

(** *** The remaining functions: [formatMoney], [signIn], [signOut] *)

(** [a || b]. *)
Definition logical_or (a b : Js.Value) : Js.Value :=
  if Js.Boolean a then a else b.

(** The digits of [n] with the last [f] after a point, as
    [Number.prototype.toFixed] lays them out. *)
Definition fixed_layout (n f : Z) : string :=
  let m := JsNumber.digits n in
  if f =? 0 then m
  else
    let k := Z.of_nat (String.length m) in
    let m := if k <=? f then JsNumber.zeros (Z.to_nat (f + 1 - k)) ++ m else m in
    let k := Z.of_nat (String.length m) in
    substring 0 (Z.to_nat (k - f)) m ++ "." ++ substring (Z.to_nat (k - f)) (Z.to_nat f) m.

(** [x.toFixed(f)]: the integer [n] nearest to [x * 10^f], the larger of
    two; numbers from [10^21] on, and those not finite, print as [String]
    prints them. *)
Definition toFixed (x : float) (f : Z) : string :=
  match Prim2SF x with
  | S754_nan | S754_infinity _ => JsNumber.NumberToString x
  | S754_zero _ => fixed_layout 0 f
  | S754_finite neg m e =>
      let p := Z.pos m * 2 ^ Z.max e 0 in
      let q := 2 ^ Z.max (- e) 0 in
      if 10 ^ 21 * q <=? p then JsNumber.NumberToString x
      else
        (if neg then "-" else "")
          ++ fixed_layout ((2 * p * 10 ^ f + q) / (2 * q)) f
  end.

Section Formatting.

(** [new Intl.NumberFormat(undefined, { style: "currency", currency })
    .format(val)] of the host, whose output depends on its locale: the text,
    or the error the constructor throws for a currency it refuses. *)
Variable NumberFormat_format : string -> float -> Js.Error + string.

Definition formatMoney (n : Js.Value) (currency : string) : string :=
  let val := Js.Number (logical_or n (Js.VNum 0)) in
  match NumberFormat_format currency val with
  | inr text => text
  | inl _ => "$" ++ toFixed val 2
  end.

End Formatting.

(** The [catch] blocks of [signIn] and [signOut]: a new [Error] with the
    message of what was caught, or [fallback] when it has none, and with its
    [code] when it has one. *)
Definition caught_as (fallback : string) (e : Js.Error) : Js.Error :=
  let err :=
    Js.new_Error (Js.String (logical_or (Js.VStr (Js.message e)) (Js.VStr fallback))) in
  match Js.code e with
  | Some c => if Js.Boolean (Js.VStr c) then Js.mkError (Js.name err) (Js.message err) (Some c)
              else err
  | None => err
  end.

Section SigningIn.

(** The identity service's [signInWithEmailAndPassword(auth, ...)] and
    [signOut(auth)], imported from the client library, and
    [seedExpensesIfEmpty] of [./dev/seed]. *)
Variable signInWithEmailAndPassword : string -> string -> Async UserCredential.
Variable fbSignOut : Async unit.
Variable seedExpensesIfEmpty : string -> Z -> Async unit.

(** [signIn] returns [cred.user], or nothing ([None]) past its [if]. *)
Definition signIn (email password : string) : Async (option User) :=
  try_catch
    (cred <- signInWithEmailAndPassword email password ;;
     local <- get isLocal ;;
     when local && truthy_object cred
       then seedExpensesIfEmpty (uid (user cred)) 100 ;;;
     if truthy_object cred then ret (Some (user cred)) else ret None)
    (fun e => throw (caught_as "Failed to sign in. Please try again." e)).

Definition signOut : Async unit :=
  u <- get currentUser ;;
  match u with
  | None => ret tt
  | Some _ =>
      try_catch fbSignOut
        (fun e => throw (caught_as "Failed to sign out. Please try again." e))
  end.

End SigningIn.

(** ** The spec's vocabulary *)

(** The error taxonomy of the spec, read on the [Error] objects the module
    throws. *)
Definition NotSignedIn : Js.Error := Js.new_Error "Not signed in".

Definition ValidationError (e : Js.Error) : Prop :=
  e = Js.new_Error "Description is required"
  \/ e = Js.new_Error "Enter a valid non-negative cost".

Definition Unauthorized : Js.Error := Js.new_Error "Unauthorized".

(** An identity is resolved: [auth.currentUser] is a user with an identifier. *)
Definition signed_in (w : World) (u : User) : Prop :=
  currentUser w = Some u /\ (uid u : string) <> "".

(** The record [id] of the identity [u], read directly from storage. *)
Definition expenseRef (u : User) (id : string) : Firestore.DocumentReference :=
  Firestore.mkRef (expensesCol (uid u)) id.

Definition all_white_space (s : string) : Prop :=
  Forall (fun c => JsNumber.is_white_space c = true) (list_ascii_of_string s).

(** ** Derived notions used in the statements *)

(** The world [addDoc] leaves when the server accepts the write. *)
Definition added_world (col : list string) (payload : gmap string Firestore.FieldValue)
    (w : World) : World :=
  set_database
    (Firestore.put (database w) (Firestore.mkRef col (autoIds w (added w)))
       (Firestore.resolve (serverTime w) <$> payload))
    (next_autoId (send (AddDoc col payload) w)).

(** The object literal [addExpense] passes to [addDoc]. *)
Definition expense_payload (expense : ExpenseArg) (trimmed : string)
  : gmap string Firestore.FieldValue :=
  <["description" := Firestore.plain (Js.VStr trimmed)]>
  (<["date" := Firestore.plain (Js.VStr (Js.String (arg_date expense)))]>
  (<["cost" := Firestore.plain (Js.VNum (Js.Number (arg_cost expense)))]>
  (<["deleted" := Firestore.plain (Js.VBool false)]>
  (<["createdAt" := Firestore.serverTimestamp]> ∅)))).

(** The [body] object [updateExpense] passes to [updateDoc]. *)
Definition update_body (next : ExpenseArg) : gmap string Js.Value :=
  assign_if (Js.defined (arg_deleted next)) "deleted"
    (Js.VBool (Js.Boolean (arg_deleted next)))
  (assign_if (Js.defined (arg_cost next)) "cost"
    (Js.VNum (Js.Number (arg_cost next)))
  (assign_if (Js.defined (arg_date next)) "date" (arg_date next)
  (assign_if (Js.defined (arg_description next)) "description"
    (arg_description next) ∅))).

(** The world [updateDoc] leaves when the document exists and the server
    accepts the write. *)
Definition updated_world (ref : Firestore.DocumentReference)
    (fields old : gmap string Js.Value) (w : World) : World :=
  set_database
    (Firestore.put (database w) ref (Firestore.merge_fields fields old))
    (send (UpdateDoc ref fields) w).

(** The query [fetchExpenses] builds for the identity [u]. *)
Definition expenses_query (u : User) : Firestore.Query :=
  Firestore.query (expensesCol (uid u))
    [Firestore.where_eq "deleted" (Js.VBool false); Firestore.orderBy "date" true].

(** The stored date of [a] is not before that of [b]. *)
Definition date_not_before (a b : Firestore.QueryDocumentSnapshot) : Prop :=
  Firestore.value_compare
    (Firestore.field "date" (Firestore.data a))
    (Firestore.field "date" (Firestore.data b)) <> Lt.

(** The spec's reading of the conversion of a stored field: the default
    when the field is absent or null, the conversion of the value
    otherwise. *)
Definition stored_or_default {A} (convert : Js.Value -> A) (default : A)
    (stored : option Js.Value) : A :=
  match stored with
  | None | Some Js.VUndefined | Some Js.VNull => default
  | Some v => convert v
  end.

(** The headers [authedFetch] passes on for the token it got: the header
    set, or the error of [headers.set]. *)
Definition authorized (token : option string) (hs : gmap string string)
  : Js.Error + gmap string string :=
  match token with
  | Some t =>
      if Js.Boolean (Js.VStr t) then Headers_set "Authorization" ("Bearer " ++ t) hs
      else inr hs
  | None => inr hs
  end.

(** The request [authedFetch] hands to [fetch], with the headers [hs]. *)
Definition authed_request (input : string) (init : RequestInit)
    (hs : gmap string string) : HttpRequest :=
  mkHttpRequest input (init_method init) hs (init_body init).

(** The world once the identity service has created the account. *)
Definition created_world (email password : string) (cred : UserCredential)
    (w : World) : World :=
  set_currentUser (Some (user cred)) (send (CreateUser email password) w).

(** ** Sample worlds and arguments *)

Definition alice : User :=
  mkUser (Firestore.mkSegment "alice" eq_refl) (fun _ => Fulfilled "tok").

(** Generated identifiers: [auto0], [auto1], ... *)
Definition sample_ids (n : nat) : Firestore.Segment :=
  Firestore.segment_or (Firestore.mkSegment "auto" eq_refl)
    ("auto" ++ Js.signed_digits (Z.of_nat n)).

Definition coffee : gmap string Js.Value :=
  <["description" := Js.VStr "Coffee"]>
  (<["date" := Js.VStr "2024-01-01"]>
  (<["cost" := Js.VNum 4.5]>
  (<["deleted" := Js.VBool false]> ∅))).

(** A record whose description is not a string. *)
Definition malformed : gmap string Js.Value :=
  <["description" := Js.VBool true]>
  (<["date" := Js.VStr "2024-02-01"]>
  (<["deleted" := Js.VBool false]> ∅)).

Definition sample_database : gmap (list string) (gmap string (gmap string Js.Value)) :=
  {[ ["users"; "alice"; "expenses"] := <["e1" := coffee]> (<["e2" := malformed]> ∅) ]}.

Definition email_in_use : Js.Error :=
  Firestore.FirebaseError "auth/email-already-in-use"
    "Firebase: Error (auth/email-already-in-use).".

(** [alice] is signed in, in a browser, and every endpoint answers 401. *)
Definition sample_world : World :=
  mkWorld (Some alice) (Some (mkWindow "example.org" [])) [] sample_database None
    sample_ids 0 (1700000000, 0)
    (fun _ _ => Rejected email_in_use)
    (fun _ => Fulfilled (mkResponse 401 "")).

(** Valid but for its cost, which is [+Infinity]. *)
Definition infinite_cost : ExpenseArg :=
  mkArg (Js.VStr "Yacht") (Js.VStr "2024-01-01") (Js.VNum infinity) (Js.VBool false).

Definition negative_cost : ExpenseArg :=
  mkArg (Js.VStr "Refund") (Js.VStr "2024-01-01") (Js.VNum (-1)) (Js.VBool false).

Definition no_description : ExpenseArg :=
  mkArg (Js.VStr "") (Js.VStr "2024-01-01") (Js.VNum 3) (Js.VBool false).

Definition padded_description : ExpenseArg :=
  mkArg (Js.VStr "  Tea ") (Js.VStr "2024-01-02") (Js.VNum 3) (Js.VBool true).

(** A description of two spaces and a tab. *)
Definition blank_description : ExpenseArg :=
  mkArg (Js.VStr (String " " (String " " (String "009" EmptyString))))
    (Js.VStr "2024-01-03") (Js.VNum 1) (Js.VBool false).

(** [{ cost: 42 }]. *)
Definition only_cost : ExpenseArg :=
  mkArg Js.VUndefined Js.VUndefined (Js.VNum 42) Js.VUndefined.

(** [{ description: "", cost: -5 }], which [addExpense] would refuse. *)
Definition invalid_edit : ExpenseArg :=
  mkArg (Js.VStr "") Js.VUndefined (Js.VNum (-5)) Js.VUndefined.

Definition bob : User :=
  mkUser (Firestore.mkSegment "bob" eq_refl) (fun _ => Fulfilled "tok2").

(** Nobody is signed in, the page is served from [localhost], the
    identity service accepts every account and the endpoints answer 200. *)
Definition local_world : World :=
  mkWorld None (Some (mkWindow "localhost" [])) [] ∅ None
    sample_ids 0 (1700000000, 0)
    (fun _ _ => Fulfilled (mkCredential bob))
    (fun _ => Fulfilled (mkResponse 200 "ok")).

(** A seeding that writes one record for the user. *)
Definition seed_one (uid : string) (n : Z) : Async unit :=
  addDoc (expensesCol uid) (expense_payload no_description "seed") ;;; ret tt.

Definition no_init : RequestInit := mkInit None None None.

Definition signed_out_world : World := set_currentUser None sample_world.

(** ** Further sample services and arguments *)

Definition wrong_password : Js.Error :=
  Firestore.FirebaseError "auth/wrong-password" "Firebase: Error (auth/wrong-password).".

(** An error with neither message nor code. *)
Definition silent_error : Js.Error := Js.mkError "Error" "" None.

Definition permission_denied : Js.Error :=
  Firestore.FirebaseError "permission-denied" "Missing or insufficient permissions.".

(** An identity service that signs [bob] in, and one that refuses. *)
Definition accept_bob (email password : string) : Async UserCredential :=
  modify (set_currentUser (Some bob)) ;;; ret (mkCredential bob).

Definition refuse_sign_in (email password : string) : Async UserCredential :=
  throw wrong_password.

Definition clear_user : Async unit := modify (set_currentUser None).

Definition seed_denied (uid : string) (n : Z) : Async unit := throw permission_denied.

(** A formatter that knows dollars only. *)
Definition dollars_only (currency : string) (val : float) : Js.Error + string :=
  if String.eqb currency "USD" then inr ("US$" ++ toFixed val 2)
  else inl (Js.mkError "RangeError" "Invalid currency code" None).

(** A user whose token cannot be refreshed. *)
Definition carol : User :=
  mkUser (Firestore.mkSegment "carol" eq_refl) (fun _ => Rejected permission_denied).

Definition carol_world : World := set_currentUser (Some carol) sample_world.

(** The endpoints are unreachable. *)
Definition offline_world : World :=
  mkWorld (Some alice) (Some (mkWindow "example.org" [])) [] sample_database None
    (autoIds sample_world) 0 (1700000000, 0) (createUser sample_world)
    (fun _ => Rejected (Js.new_TypeError "Failed to fetch")).

(** [alice] outside a browser; every endpoint answers 401. *)
Definition server_side_world : World := set_window None sample_world.

(** The caller's own headers, one of them an authorization. *)
Definition own_headers : RequestInit :=
  mkInit (Some "POST") (Some [("AUTHORIZATION", "Basic abc"); ("Accept", "text/plain")])
    (Some "payload").

(** Headers of the caller's that [Headers] refuses: a name with a space. *)
Definition spaced_header : RequestInit :=
  mkInit None (Some [("Content Type", "text/plain")]) None.

(** A user whose token holds a line feed. *)
Definition broken_token : string := "to" ++ String (ascii_of_nat 10) "k".

Definition dave : User :=
  mkUser (Firestore.mkSegment "dave" eq_refl) (fun _ => Fulfilled broken_token).

Definition dave_world : World := set_currentUser (Some dave) sample_world.

(** The messages of [doc] for the identifiers ["a/b"] and [""] of [alice]. *)
Definition odd_path_message : string :=
  "Invalid document reference. Document references must have an even number of segments, but users/alice/expenses/a/b has 5.".

Definition empty_id_message : string :=
  "Invalid document reference. Document references must have an even number of segments, but users/alice/expenses has 3.".

Definition valid_expense : ExpenseArg :=
  mkArg (Js.VStr " Lunch ") (Js.VStr "2024-03-05") (Js.VStr "12.5") Js.VUndefined.

(** [{ deleted: "yes" }] and [{ deleted: false }]. *)
Definition mark_deleted : ExpenseArg :=
  mkArg Js.VUndefined Js.VUndefined Js.VUndefined (Js.VStr "yes").

Definition mark_kept : ExpenseArg :=
  mkArg Js.VUndefined Js.VUndefined Js.VUndefined (Js.VBool false).

Definition empty_update : ExpenseArg :=
  mkArg Js.VUndefined Js.VUndefined Js.VUndefined Js.VUndefined.

(** The database refuses every call of [alice]. *)
Definition refusing_world : World :=
  mkWorld (Some alice) (Some (mkWindow "example.org" [])) [] sample_database
    (Some ("permission-denied", "Missing or insufficient permissions."))
    (autoIds sample_world) 0 (1700000000, 0) (createUser sample_world)
    (httpServer sample_world).

(** ** Properties *)

(** *** The conversions on known values *)

Example NumberToString_known :
  JsNumber.NumberToString <$> [4.5; 42; 0.5; 1e21; (-0); nan; neg_infinity; 1e22]%float
  = ["4.5"; "42"; "0.5"; "1e+21"; "0"; "NaN"; "-Infinity"; "1e+22"].
Proof. vm_compute. reflexivity. Qed.

Example NumberToString_shortest :
  JsNumber.NumberToString
    <$> (JsNumber.StringToNumber
           <$> ["0.1"; "1e-7"; "5e-324"; "0.30000000000000004"; "0.000001";
                "123456789012345678901"; "1.7976931348623157e308"; "100e-2"])
  = ["0.1"; "1e-7"; "5e-324"; "0.30000000000000004"; "0.000001";
     "123456789012345680000"; "1.7976931348623157e+308"; "1"].
Proof. vm_compute. reflexivity. Qed.

Example StringToNumber_known :
  JsNumber.StringToNumber <$> ["4.5"; "  12e2 "; "0x1F"; ""; "abc"; "-Infinity"; ".5"; "5.";
                               "."; "1e400"; "9007199254740993"; "12px"; "-0x10"]
  = [4.5; 1200; 31; 0; nan; neg_infinity; 0.5; 5; nan; infinity;
     9007199254740992; nan; nan]%float.
Proof. vm_compute. reflexivity. Qed.

Example Boolean_known :
  Js.Boolean <$> [Js.VStr ""; Js.VStr " "; Js.VNum 0; Js.VNum (-0); Js.VNum nan;
                  Js.VNum 1; Js.VNull; Js.VUndefined; Js.VTimestamp 0 0]
  = [false; true; false; false; false; true; false; false; true].
Proof. vm_compute. reflexivity. Qed.

Example trim_known :
  Js.trim <$> ["  Tea "; "Tea"; "   "; "a b"] = ["Tea"; "Tea"; ""; "a b"].
Proof. vm_compute. reflexivity. Qed.

(** *** Running the monad *)

Lemma bind_fulfilled {A B} (m : Async A) (k : A -> Async B) w a w' :
  m w = (Fulfilled a, w') -> bind m k w = k a w'.
Proof. intros H. unfold bind. now rewrite H. Qed.

Lemma bind_rejected {A B} (m : Async A) (k : A -> Async B) w e w' :
  m w = (Rejected e, w') -> bind m k w = (Rejected e, w').
Proof. intros H. unfold bind. now rewrite H. Qed.

Lemma try_rethrow {A} (m : Async A) w :
  try_catch m (fun error => throw error) w = m w.
Proof. unfold try_catch, throw. destruct (m w) as [[a|e] w']; reflexivity. Qed.

(** *** [requireUid] *)

Lemma requireUid_signed_in w u :
  signed_in w u -> requireUid w = (Fulfilled (uid u : string), w).
Proof.
  intros [Hu Hid]. unfold requireUid, bind, get. rewrite Hu. simpl.
  destruct (String.eqb_spec (uid u) ""); [contradiction | reflexivity].
Qed.

Lemma requireUid_signed_out w :
  currentUser w = None -> requireUid w = (Rejected NotSignedIn, w).
Proof. intros Hu. unfold requireUid, bind, get. now rewrite Hu. Qed.

(** [requireUid] reads the singleton and nothing else. *)
Lemma requireUid_pure w o w' : requireUid w = (o, w') -> w' = w.
Proof.
  unfold requireUid, bind, get, throw, ret. destruct (currentUser w) as [u|]; simpl.
  - destruct (negb _); congruence.
  - congruence.
Qed.

(** C1: with no identity resolved, each of [fetchExpenses], [addExpense],
    [updateExpense] and [deleteExpense] is rejected with the "Not signed
    in" error and leaves the world as it was: no request is sent and
    nothing is written. *)
Theorem crud_requires_identity (w : World) (Hout : currentUser w = None) :
  fetchExpenses w = (Rejected NotSignedIn, w)
  /\ (forall expense, addExpense expense w = (Rejected NotSignedIn, w))
  /\ (forall id next, updateExpense id next w = (Rejected NotSignedIn, w))
  /\ (forall id, deleteExpense id w = (Rejected NotSignedIn, w)).
Proof.
  pose proof (requireUid_signed_out w Hout) as Hreq.
  repeat split; intros.
  - unfold fetchExpenses. now rewrite (bind_rejected _ _ _ _ _ Hreq).
  - unfold addExpense. rewrite try_rethrow. now rewrite (bind_rejected _ _ _ _ _ Hreq).
  - unfold updateExpense. now rewrite (bind_rejected _ _ _ _ _ Hreq).
  - unfold deleteExpense. now rewrite (bind_rejected _ _ _ _ _ Hreq).
Qed.

Lemma crud_requires_identity_witness :
  currentUser signed_out_world = None
  /\ fetchExpenses signed_out_world = (Rejected NotSignedIn, signed_out_world)
  /\ requests (deleteExpense (Js.VStr "e1") signed_out_world).2 = [].
Proof.
  destruct (crud_requires_identity signed_out_world eq_refl) as (Hf & _ & _ & Hd).
  split; [reflexivity |]. split; [exact Hf |]. now rewrite Hd.
Defined.

(** *** The Firestore calls *)

Lemma firestore_call_ok r w :
  firestoreFault w = None -> firestore_call r w = (Fulfilled tt, send r w).
Proof.
  intros H. unfold firestore_call, bind, modify, get. simpl. now rewrite H.
Qed.

Lemma firestore_call_fault r w c m :
  firestoreFault w = Some (c, m) ->
  firestore_call r w = (Rejected (Firestore.FirebaseError c m), send r w).
Proof.
  intros H. unfold firestore_call, bind, modify, get. simpl. now rewrite H.
Qed.

Lemma addDoc_ok col payload w :
  firestoreFault w = None ->
  addDoc col payload w
  = (Fulfilled (Firestore.mkRef col (autoIds w (added w))), added_world col payload w).
Proof.
  intros H. unfold addDoc.
  rewrite (bind_fulfilled _ _ _ _ _ (firestore_call_ok _ _ H)). reflexivity.
Qed.

Lemma addDoc_rejected col payload w e w' :
  addDoc col payload w = (Rejected e, w') ->
  database w' = database w /\ Js.name e = "FirebaseError".
Proof.
  unfold addDoc. destruct (firestoreFault w) as [[c m]|] eqn:H.
  - rewrite (bind_rejected _ _ _ _ _ (firestore_call_fault _ _ _ _ H)).
    intros [= <- <-]. split; reflexivity.
  - rewrite (bind_fulfilled _ _ _ _ _ (firestore_call_ok _ _ H)). discriminate.
Qed.

(** *** [addExpense] *)

Lemma requireUid_cases w :
  requireUid w = (Rejected NotSignedIn, w)
  \/ exists u, signed_in w u /\ requireUid w = (Fulfilled (uid u : string), w).
Proof.
  destruct (currentUser w) as [u|] eqn:Hu.
  - destruct (decide ((uid u : string) = "")) as [He|Hne].
    + left. unfold requireUid, bind, get. rewrite Hu. simpl. now rewrite He.
    + right. exists u. split; [now split |]. now apply requireUid_signed_in.
  - left. now apply requireUid_signed_out.
Qed.

(** The body of [addExpense] for a resolved identity, step by step. *)
Lemma addExpense_signed_in w u expense :
  signed_in w u ->
  addExpense expense w =
    if negb (Js.Boolean (arg_description expense))
    then (Rejected (Js.new_Error "Description is required"), w)
    else if Js.isNaN (Js.Number (arg_cost expense))
            || (Js.Number (arg_cost expense) <? 0)%float
    then (Rejected (Js.new_Error "Enter a valid non-negative cost"), w)
    else match Js.call_trim (arg_description expense) with
         | inl e => (Rejected e, w)
         | inr t =>
             match addDoc (expensesCol (uid u)) (expense_payload expense t) w with
             | (Fulfilled _, w') => (Fulfilled tt, w')
             | (Rejected e, w') => (Rejected e, w')
             end
         end.
Proof.
  intros Hin. unfold addExpense. rewrite try_rethrow.
  rewrite (bind_fulfilled _ _ _ _ _ (requireUid_signed_in _ _ Hin)).
  destruct (negb (Js.Boolean (arg_description expense))); [reflexivity |].
  destruct (Js.isNaN _ || _); [reflexivity |].
  unfold bind, ret, settle, throw.
  destruct (Js.call_trim (arg_description expense)); [reflexivity |].
  fold (expense_payload expense s).
  destruct (addDoc _ _ w) as [[r|e] w']; reflexivity.
Qed.

(** A read sees the kept map through the names that are segments. *)
Lemma read_lookup db ref :
  Firestore.read db ref
  = if Firestore.is_segment (Firestore.id ref)
    then Firestore.raw_documents db (Firestore.parent ref) !! Firestore.id ref
    else None.
Proof.
  unfold Firestore.read, Firestore.documents. rewrite map_lookup_filter.
  destruct (Firestore.raw_documents db (Firestore.parent ref) !! Firestore.id ref);
    simpl; [| now destruct (Firestore.is_segment _)].
  destruct (Firestore.is_segment (Firestore.id ref)) eqn:Hseg.
  - rewrite option_guard_True by reflexivity. reflexivity.
  - rewrite option_guard_False by discriminate. reflexivity.
Qed.

Lemma read_Some db ref d :
  Firestore.read db ref = Some d ->
  Firestore.is_segment (Firestore.id ref) = true
  /\ Firestore.raw_documents db (Firestore.parent ref) !! Firestore.id ref = Some d.
Proof.
  rewrite read_lookup. destruct (Firestore.is_segment _); [auto | discriminate].
Qed.

Lemma raw_put_eq db ref d :
  Firestore.raw_documents (Firestore.put db ref d) (Firestore.parent ref)
  = <[Firestore.id ref := d]> (Firestore.raw_documents db (Firestore.parent ref)).
Proof.
  unfold Firestore.put. unfold Firestore.raw_documents at 1.
  now rewrite lookup_insert_eq.
Qed.

Lemma raw_put_ne db ref d col :
  Firestore.parent ref <> col ->
  Firestore.raw_documents (Firestore.put db ref d) col = Firestore.raw_documents db col.
Proof.
  intros Hne. unfold Firestore.put. unfold Firestore.raw_documents at 1 3.
  now rewrite lookup_insert_ne.
Qed.

Lemma read_put_eq db ref d :
  Firestore.is_segment (Firestore.id ref) = true ->
  Firestore.read (Firestore.put db ref d) ref = Some d.
Proof.
  intros Hseg. rewrite read_lookup, Hseg, raw_put_eq. apply lookup_insert_eq.
Qed.

Lemma read_put_ne db ref ref' d :
  ref' <> ref -> Firestore.read (Firestore.put db ref d) ref' = Firestore.read db ref'.
Proof.
  intros Hne. rewrite !read_lookup.
  destruct (Firestore.is_segment (Firestore.id ref')); [| reflexivity].
  destruct (decide (Firestore.parent ref' = Firestore.parent ref)) as [Hp|Hp].
  - rewrite Hp, raw_put_eq. rewrite lookup_insert_ne; [reflexivity |].
    intros Hid. apply Hne. destruct ref, ref'. simpl in *. congruence.
  - rewrite raw_put_ne; [reflexivity | congruence].
Qed.

Lemma trim_all_white_space s : all_white_space s -> Js.trim s = "".
Proof.
  unfold all_white_space, Js.trim, JsNumber.trim_list.
  assert (Hdrop : forall l, Forall (fun c => JsNumber.is_white_space c = true) l ->
                            JsNumber.drop_white_space l = []).
  { induction 1 as [|c l Hc _ IH]; simpl; [reflexivity | now rewrite Hc]. }
  intros H. now rewrite (Hdrop _ H).
Qed.

Lemma call_trim_inr v t : Js.call_trim v = inr t -> exists s, v = Js.VStr s /\ t = Js.trim s.
Proof. destruct v; simpl; try discriminate. intros [= <-]. eauto. Qed.

Lemma addExpense_accepts w u expense s :
  signed_in w u -> firestoreFault w = None ->
  arg_description expense = Js.VStr s -> s <> "" ->
  Js.isNaN (Js.Number (arg_cost expense)) = false ->
  (Js.Number (arg_cost expense) <? 0)%float = false ->
  addExpense expense w
  = (Fulfilled tt,
     added_world (expensesCol (uid u)) (expense_payload expense (Js.trim s)) w).
Proof.
  intros Hin Hok Hd Hs Hnan Hneg. rewrite (addExpense_signed_in _ _ _ Hin).
  rewrite Hd, Hnan, Hneg. simpl.
  destruct (String.eqb_spec s ""); [contradiction |]. simpl.
  now rewrite (addDoc_ok _ _ _ Hok).
Qed.

Lemma added_world_read col payload w :
  Firestore.read (database (added_world col payload w))
    (Firestore.mkRef col (autoIds w (added w)))
  = Some (Firestore.resolve (serverTime w) <$> payload).
Proof.
  unfold added_world. simpl. apply read_put_eq. apply Firestore.segment_ok.
Qed.

Lemma payload_description expense t now :
  (Firestore.resolve now <$> expense_payload expense t) !! "description"
  = Some (Js.VStr t).
Proof. unfold expense_payload. rewrite lookup_fmap, lookup_insert_eq. reflexivity. Qed.

Lemma payload_deleted expense t now :
  (Firestore.resolve now <$> expense_payload expense t) !! "deleted"
  = Some (Js.VBool false).
Proof.
  unfold expense_payload. rewrite lookup_fmap.
  rewrite !lookup_insert_ne by discriminate. rewrite lookup_insert_eq. reflexivity.
Qed.

(** What a fulfilled [addExpense] has gone through. *)
Lemma addExpense_fulfilled w u expense w' :
  signed_in w u -> addExpense expense w = (Fulfilled tt, w') ->
  exists s,
    arg_description expense = Js.VStr s /\ s <> ""
    /\ Js.isNaN (Js.Number (arg_cost expense)) = false
    /\ (Js.Number (arg_cost expense) <? 0)%float = false
    /\ w' = added_world (expensesCol (uid u)) (expense_payload expense (Js.trim s)) w.
Proof.
  intros Hin. rewrite (addExpense_signed_in _ _ _ Hin).
  destruct (negb (Js.Boolean (arg_description expense))) eqn:Hb; [discriminate |].
  destruct (Js.isNaN _ || _) eqn:Hc; [discriminate |].
  apply orb_false_iff in Hc as [Hnan Hneg].
  destruct (Js.call_trim _) as [e|t] eqn:Ht; [discriminate |].
  apply call_trim_inr in Ht as (s & Hs & ->).
  destruct (firestoreFault w) as [[c m]|] eqn:Hf.
  - destruct (addDoc _ _ w) as [[r|e] w1] eqn:Ha; [| discriminate].
    unfold addDoc in Ha.
    rewrite (bind_rejected _ _ _ _ _ (firestore_call_fault _ _ _ _ Hf)) in Ha.
    discriminate.
  - rewrite (addDoc_ok _ _ _ Hf). intros [= <-]. exists s.
    repeat split; try assumption.
    intros ->. rewrite Hs in Hb. discriminate.
Qed.

(** C2 (as amended): for a resolved identity and an input whose cost,
    taken as a number, is NaN or less than 0, [addExpense] is rejected with
    a validation error and leaves the world as it was (no request, no
    write). *)
Theorem addExpense_rejects_invalid_cost (w : World) (u : User) (expense : ExpenseArg)
    (Hin : signed_in w u)
    (Hcost : Js.isNaN (Js.Number (arg_cost expense)) = true
             \/ (Js.Number (arg_cost expense) <? 0)%float = true) :
  exists e, ValidationError e /\ addExpense expense w = (Rejected e, w).
Proof.
  rewrite (addExpense_signed_in _ _ _ Hin).
  destruct (negb (Js.Boolean (arg_description expense))).
  - eexists. split; [left; reflexivity | reflexivity].
  - assert (Hc : Js.isNaN (Js.Number (arg_cost expense))
                 || (Js.Number (arg_cost expense) <? 0)%float = true).
    { apply orb_true_iff. exact Hcost. }
    rewrite Hc. eexists. split; [right; reflexivity | reflexivity].
Qed.

Lemma addExpense_rejects_invalid_cost_witness :
  signed_in sample_world alice
  /\ (Js.Number (arg_cost negative_cost) <? 0)%float = true
  /\ exists e, ValidationError e
       /\ addExpense negative_cost sample_world = (Rejected e, sample_world).
Proof.
  assert (Hin : signed_in sample_world alice) by (split; [reflexivity | discriminate]).
  split; [exact Hin |]. split; [reflexivity |].
  apply (addExpense_rejects_invalid_cost sample_world alice negative_cost Hin).
  right. reflexivity.
Defined.

(** C2 (counterexample): the cost [+Infinity] is not a finite number, yet
    [addExpense] is fulfilled and the record is written with that cost. *)
Lemma addExpense_accepts_infinite_cost :
  (addExpense infinite_cost sample_world).1 = Fulfilled tt
  /\ Firestore.read (database sample_world) (expenseRef alice "auto0") = None
  /\ Firestore.field "cost"
       <$> Firestore.read (database (addExpense infinite_cost sample_world).2)
             (expenseRef alice "auto0")
     = Some (Js.VNum infinity).
Proof. vm_compute. repeat split; reflexivity. Qed.

(** C3: for a resolved identity, an input with the empty description is
    rejected with a validation error and the world is left as it was; and
    whenever [addExpense] is fulfilled, the description was a string and the
    record now stored under the new identifier has that string trimmed as
    its description and [deleted = false]. *)
Theorem addExpense_description (w : World) (u : User) (Hin : signed_in w u) :
  (forall expense,
      arg_description expense = Js.VStr "" ->
      exists e, ValidationError e /\ addExpense expense w = (Rejected e, w))
  /\ (forall expense w',
      addExpense expense w = (Fulfilled tt, w') ->
      exists s doc,
        arg_description expense = Js.VStr s
        /\ Firestore.read (database w') (expenseRef u (autoIds w (added w))) = Some doc
        /\ doc !! "description" = Some (Js.VStr (Js.trim s))
        /\ doc !! "deleted" = Some (Js.VBool false)).
Proof.
  split.
  - intros expense Hd. rewrite (addExpense_signed_in _ _ _ Hin), Hd. simpl.
    eexists. split; [left; reflexivity | reflexivity].
  - intros expense w' Hrun.
    destruct (addExpense_fulfilled _ _ _ _ Hin Hrun) as (s & Hd & _ & _ & _ & ->).
    exists s. eexists. split; [exact Hd |].
    split; [apply added_world_read |].
    split; [apply payload_description | apply payload_deleted].
Qed.

Lemma addExpense_description_witness :
  signed_in sample_world alice
  /\ (exists e, ValidationError e
        /\ addExpense no_description sample_world = (Rejected e, sample_world))
  /\ (exists w' doc,
        addExpense padded_description sample_world = (Fulfilled tt, w')
        /\ Firestore.read (database w') (expenseRef alice "auto0") = Some doc
        /\ doc !! "description" = Some (Js.VStr "Tea")
        /\ doc !! "deleted" = Some (Js.VBool false)).
Proof.
  assert (Hin : signed_in sample_world alice) by (split; [reflexivity | discriminate]).
  destruct (addExpense_description sample_world alice Hin) as [Hempty Hstored].
  split; [exact Hin |]. split; [apply Hempty; reflexivity |].
  assert (Hrun : addExpense padded_description sample_world
                 = (Fulfilled tt,
                    added_world (expensesCol "alice")
                      (expense_payload padded_description (Js.trim "  Tea "))
                      sample_world)).
  { apply (addExpense_accepts sample_world alice padded_description "  Tea " Hin);
      (reflexivity || discriminate). }
  destruct (Hstored _ _ Hrun) as (s & doc & Hs & Hread & Hdesc & Hdel).
  injection Hs as <-.
  eexists. exists doc. split; [exact Hrun |].
  split; [exact Hread |]. split; [exact Hdesc | exact Hdel].
Defined.

(** C9: the description is validated before it is trimmed: for a resolved
    identity and a backend that accepts the write, an input whose
    description is a non-empty string of white space only (and whose cost
    is valid) is fulfilled, not rejected, and the stored description is the
    empty string. *)
Theorem addExpense_blank_description (w : World) (u : User) (expense : ExpenseArg)
    (s : string)
    (Hin : signed_in w u) (Hok : firestoreFault w = None)
    (Hd : arg_description expense = Js.VStr s) (Hs : s <> "")
    (Hblank : all_white_space s)
    (Hnan : Js.isNaN (Js.Number (arg_cost expense)) = false)
    (Hneg : (Js.Number (arg_cost expense) <? 0)%float = false) :
  exists w' doc,
    addExpense expense w = (Fulfilled tt, w')
    /\ Firestore.read (database w') (expenseRef u (autoIds w (added w))) = Some doc
    /\ doc !! "description" = Some (Js.VStr "").
Proof.
  eexists. eexists. split; [apply (addExpense_accepts _ _ _ _ Hin Hok Hd Hs Hnan Hneg) |].
  split; [apply added_world_read |].
  rewrite payload_description. now rewrite (trim_all_white_space _ Hblank).
Qed.

Lemma addExpense_blank_description_witness :
  exists w' doc,
    addExpense blank_description sample_world = (Fulfilled tt, w')
    /\ Firestore.read (database w') (expenseRef alice "auto0") = Some doc
    /\ doc !! "description" = Some (Js.VStr "").
Proof.
  apply (addExpense_blank_description sample_world alice blank_description
           (String " " (String " " (String "009" EmptyString)))).
  - split; [reflexivity | discriminate].
  - reflexivity.
  - reflexivity.
  - discriminate.
  - repeat constructor.
  - reflexivity.
  - reflexivity.
Defined.

(** *** Queries *)

Lemma lex_opp c1 c2 :
  CompOpp (Firestore.lex c1 c2) = Firestore.lex (CompOpp c1) (CompOpp c2).
Proof. destruct c1; reflexivity. Qed.

Lemma value_compare_antisym a b :
  Firestore.value_compare a b = CompOpp (Firestore.value_compare b a).
Proof.
  unfold Firestore.value_compare.
  destruct (Firestore.value_key a) as [[[ta ka] la] sa].
  destruct (Firestore.value_key b) as [[[tb kb] lb] sb].
  rewrite !lex_opp, <- !Z.compare_antisym, <- String.compare_antisym. reflexivity.
Qed.

Lemma directed_opp desc c :
  CompOpp (Firestore.directed desc c) = Firestore.directed desc (CompOpp c).
Proof. destruct desc; reflexivity. Qed.

Lemma order_compare_antisym os last_desc a b :
  Firestore.order_compare os last_desc a b
  = CompOpp (Firestore.order_compare os last_desc b a).
Proof.
  revert last_desc. induction os as [|[f desc] os IH]; intros last_desc; simpl.
  - now rewrite directed_opp, <- String.compare_antisym.
  - now rewrite lex_opp, directed_opp, <- value_compare_antisym, <- IH.
Qed.

#[local] Instance precedes_total q : Total (Firestore.precedes q).
Proof.
  intros a b. unfold Firestore.precedes.
  rewrite (order_compare_antisym _ _ b a).
  destruct (Firestore.order_compare _ _ a b); simpl; [left | left | right]; discriminate.
Qed.

Lemma run_query_sorted db q :
  Sorted (Firestore.precedes q) (Firestore.run_query db q).
Proof. apply Sorted_merge_sort, _. Qed.

Lemma elem_of_run_query db q d :
  d ∈ Firestore.run_query db q
  <-> Firestore.documents db (Firestore.q_collection q) !! Firestore.snap_id d
      = Some (Firestore.data d)
      /\ forallb (Firestore.satisfies (Firestore.data d)) (Firestore.q_constraints q) = true.
Proof.
  unfold Firestore.run_query. rewrite merge_sort_Permutation.
  unfold Firestore.matching. rewrite list_elem_of_filter, list_elem_of_fmap.
  split.
  - intros [Hsat ([i x] & -> & Hin)]. simpl in *.
    apply elem_of_map_to_list in Hin. split; [exact Hin |].
    now apply Is_true_true.
  - intros [Hlook Hsat]. split; [now apply Is_true_true |].
    exists (Firestore.snap_id d, Firestore.data d). split; [now destruct d |].
    now apply elem_of_map_to_list.
Qed.

Lemma run_query_NoDup db q :
  NoDup (Firestore.snap_id <$> Firestore.run_query db q).
Proof.
  unfold Firestore.run_query. rewrite merge_sort_Permutation.
  unfold Firestore.matching.
  eapply sublist_NoDup; [| apply fmap_sublist, sublist_filter].
  rewrite <- list_fmap_compose.
  apply (NoDup_fst_map_to_list (Firestore.documents db (Firestore.q_collection q))).
Qed.

Lemma Sorted_weaken {A} (R R' : relation A) l :
  (forall x y, R x y -> R' x y) -> Sorted R l -> Sorted R' l.
Proof.
  intros Himp. induction 1 as [|x l _ IH Hhd]; constructor; [exact IH |].
  destruct Hhd; constructor. now apply Himp.
Qed.

Lemma value_compare_false v :
  Firestore.value_compare v (Js.VBool false) = Eq <-> v = Js.VBool false.
Proof.
  split; [| now intros ->].
  destruct v as [| |[|]| | |]; cbn; (discriminate || reflexivity).
Qed.

(** The two constraints of [fetchExpenses]'s query, on a stored record. *)
Lemma expenses_query_satisfied u d :
  forallb (Firestore.satisfies d) (Firestore.q_constraints (expenses_query u)) = true
  <-> d !! "deleted" = Some (Js.VBool false) /\ is_Some (d !! "date").
Proof.
  simpl. rewrite andb_true_r, andb_true_iff, bool_decide_eq_true.
  destruct (d !! "deleted") as [v|].
  - rewrite bool_decide_eq_true, value_compare_false.
    split; intros [H1 H2]; (split; [congruence | assumption]).
  - split; intros [H1 H2]; discriminate.
Qed.

Lemma precedes_date u a b :
  Firestore.precedes (expenses_query u) a b -> date_not_before a b.
Proof.
  unfold Firestore.precedes, date_not_before. simpl.
  destruct (Firestore.value_compare _ _); simpl; congruence.
Qed.

Lemma getDocs_ok q w :
  firestoreFault w = None ->
  getDocs q w = (Fulfilled (Firestore.run_query (database w) q), send (GetDocs q) w).
Proof.
  intros H. unfold getDocs.
  rewrite (bind_fulfilled _ _ _ _ _ (firestore_call_ok _ _ H)). reflexivity.
Qed.

Lemma fetchExpenses_signed_in w u :
  signed_in w u -> firestoreFault w = None ->
  fetchExpenses w
  = (Fulfilled (to_Expense <$> Firestore.run_query (database w) (expenses_query u)),
     send (GetDocs (expenses_query u)) w).
Proof.
  intros Hin Hok. unfold fetchExpenses.
  rewrite (bind_fulfilled _ _ _ _ _ (requireUid_signed_in _ _ Hin)).
  fold (expenses_query u).
  rewrite (bind_fulfilled _ _ _ _ _ (getDocs_ok _ _ Hok)). reflexivity.
Qed.

(** The conversion of one snapshot, field by field. *)
Lemma to_Expense_fields d :
  id (to_Expense d) = Firestore.snap_id d
  /\ description (to_Expense d)
     = stored_or_default Js.String "" (Firestore.data d !! "description")
  /\ date (to_Expense d) = stored_or_default Js.String "" (Firestore.data d !! "date")
  /\ cost (to_Expense d) = stored_or_default Js.Number 0%float (Firestore.data d !! "cost")
  /\ deleted (to_Expense d)
     = stored_or_default Js.Boolean false (Firestore.data d !! "deleted").
Proof.
  unfold to_Expense, Firestore.field. simpl.
  repeat split.
  - destruct (Firestore.data d !! "description") as [[]|]; reflexivity.
  - destruct (Firestore.data d !! "date") as [[]|]; reflexivity.
  - destruct (Firestore.data d !! "cost") as [[]|]; reflexivity.
  - destruct (Firestore.data d !! "deleted") as [[]|]; reflexivity.
Qed.

(** *** Stored dates that are strings compare as strings *)

Lemma date_not_before_strings a b s t :
  Firestore.field "date" (Firestore.data a) = Js.VStr s ->
  Firestore.field "date" (Firestore.data b) = Js.VStr t ->
  date_not_before a b <-> String.compare s t <> Lt.
Proof. intros Ha Hb. unfold date_not_before. rewrite Ha, Hb. reflexivity. Qed.

(** C4 (as amended): for a resolved identity and a backend that answers,
    [fetchExpenses] sends one query and returns the conversions of the
    snapshots [docs], which are exactly the stored records of the identity
    whose [deleted] field is the boolean [false] and which have a [date]
    field, each once, ordered by stored date descending. Each field is
    converted with [String], [Number] or [Boolean]; the defaults [""], [0]
    and [false] stand in only for a field that is absent or null. With no
    such record the result is the empty list. *)
Theorem fetchExpenses_result (w : World) (u : User)
    (Hin : signed_in w u) (Hok : firestoreFault w = None) :
  exists docs,
    fetchExpenses w
    = (Fulfilled (to_Expense <$> docs), send (GetDocs (expenses_query u)) w)
    /\ NoDup (Firestore.snap_id <$> docs)
    /\ (forall d,
          d ∈ docs
          <-> Firestore.read (database w) (expenseRef u (Firestore.snap_id d))
              = Some (Firestore.data d)
              /\ Firestore.data d !! "deleted" = Some (Js.VBool false)
              /\ is_Some (Firestore.data d !! "date"))
    /\ Sorted date_not_before docs
    /\ (forall d,
          id (to_Expense d) = Firestore.snap_id d
          /\ description (to_Expense d)
             = stored_or_default Js.String "" (Firestore.data d !! "description")
          /\ date (to_Expense d)
             = stored_or_default Js.String "" (Firestore.data d !! "date")
          /\ cost (to_Expense d)
             = stored_or_default Js.Number 0%float (Firestore.data d !! "cost")
          /\ deleted (to_Expense d)
             = stored_or_default Js.Boolean false (Firestore.data d !! "deleted"))
    /\ ((forall i doc,
           Firestore.read (database w) (expenseRef u i) = Some doc ->
           doc !! "deleted" = Some (Js.VBool false) -> doc !! "date" = None)
        -> docs = []).
Proof.
  exists (Firestore.run_query (database w) (expenses_query u)).
  assert (Hmem : forall d,
             d ∈ Firestore.run_query (database w) (expenses_query u)
             <-> Firestore.read (database w) (expenseRef u (Firestore.snap_id d))
                 = Some (Firestore.data d)
                 /\ Firestore.data d !! "deleted" = Some (Js.VBool false)
                 /\ is_Some (Firestore.data d !! "date")).
  { intros d. rewrite elem_of_run_query, expenses_query_satisfied. reflexivity. }
  split; [now apply fetchExpenses_signed_in |].
  split; [apply run_query_NoDup |].
  split; [exact Hmem |].
  split; [eapply Sorted_weaken; [apply precedes_date | apply run_query_sorted] |].
  split; [apply to_Expense_fields |].
  intros Hnone.
  destruct (Firestore.run_query (database w) (expenses_query u)) as [|d l] eqn:Hq;
    [reflexivity |].
  exfalso. destruct (proj1 (Hmem d)) as (Hr & Hdel & Hdate); [left |].
  rewrite (Hnone _ _ Hr Hdel) in Hdate. now destruct Hdate.
Qed.

Lemma fetchExpenses_result_witness :
  signed_in sample_world alice
  /\ firestoreFault sample_world = None
  /\ exists docs,
       fetchExpenses sample_world
       = (Fulfilled (to_Expense <$> docs),
          send (GetDocs (expenses_query alice)) sample_world)
       /\ Firestore.snap_id <$> docs = ["e2"; "e1"]
       /\ Sorted date_not_before docs.
Proof.
  assert (Hin : signed_in sample_world alice) by (split; [reflexivity | discriminate]).
  split; [exact Hin |]. split; [reflexivity |].
  destruct (fetchExpenses_result sample_world alice Hin eq_refl)
    as (docs & Hrun & _ & _ & Hsorted & _).
  exists docs. split; [exact Hrun |]. split; [| exact Hsorted].
  rewrite (fetchExpenses_signed_in _ _ Hin eq_refl) in Hrun.
  injection Hrun as Hdocs.
  assert (Hids : id <$> (to_Expense <$> docs) = ["e2"; "e1"])
    by (rewrite <- Hdocs; vm_compute; reflexivity).
  rewrite <- list_fmap_compose in Hids. exact Hids.
Defined.

(** C4 (counterexample): the stored record [e2] has [deleted = false] and a
    description that is not a string (the boolean [true]); [fetchExpenses]
    returns it with the description ["true"], not the default [""]. *)
Lemma fetchExpenses_converts_malformed :
  Firestore.read (database sample_world) (expenseRef alice "e2") = Some malformed
  /\ malformed !! "description" = Some (Js.VBool true)
  /\ (fetchExpenses sample_world).1
     = Fulfilled [mkExpense "e2" "true" "2024-02-01" 0 false;
                  mkExpense "e1" "Coffee" "2024-01-01" 4.5 false].
Proof. vm_compute. repeat split; reflexivity. Qed.

(** *** [updateExpense] and [deleteExpense] *)

Lemma updateDoc_ok ref fields old w :
  firestoreFault w = None -> Firestore.read (database w) ref = Some old ->
  updateDoc ref fields w = (Fulfilled tt, updated_world ref fields old w).
Proof.
  intros Hok Hold. unfold updateDoc.
  rewrite (bind_fulfilled _ _ _ _ _ (firestore_call_ok _ _ Hok)).
  unfold bind, get. simpl. now rewrite Hold.
Qed.

(** [updateDoc] is rejected by the database only, with its own error. *)
Lemma updateDoc_rejected ref fields w e w' :
  updateDoc ref fields w = (Rejected e, w') ->
  Js.name e = "FirebaseError" /\ database w' = database w.
Proof.
  unfold updateDoc. destruct (firestoreFault w) as [[c m]|] eqn:Hf.
  - rewrite (bind_rejected _ _ _ _ _ (firestore_call_fault _ _ _ _ Hf)).
    intros [= <- <-]. split; reflexivity.
  - rewrite (bind_fulfilled _ _ _ _ _ (firestore_call_ok _ _ Hf)).
    unfold bind, get. simpl. destruct (Firestore.read (database w) ref).
    + discriminate.
    + intros [= <- <-]. split; reflexivity.
Qed.

(** *** Document paths *)

Lemma split_at_slash_segment l cur :
  forallb (fun c => negb (Ascii.eqb c "/")) l = true ->
  Firestore.split_at_slash l cur
  = match (rev cur ++ l)%list with
    | [] => []
    | _ => [string_of_list_ascii (rev cur ++ l)]
    end.
Proof.
  revert cur. induction l as [|c l IH]; intros cur Hl; simpl.
  - rewrite app_nil_r. destruct cur as [|c cur]; [reflexivity |]. simpl.
    now destruct (rev cur).
  - simpl in Hl. apply andb_true_iff in Hl as [Hc Hl].
    apply negb_true_iff in Hc. rewrite Hc, (IH _ Hl). simpl.
    now rewrite <- app_assoc.
Qed.

(** A segment is one piece of a path, and is cut into itself. *)
Lemma split_path_segment s :
  Firestore.is_segment s = true -> Firestore.split_path s = [s].
Proof.
  unfold Firestore.is_segment, Firestore.split_path.
  intros [Hne Hl]%andb_true_iff. rewrite (split_at_slash_segment _ _ Hl). simpl.
  destruct (list_ascii_of_string s) as [|c l] eqn:Hs.
  - destruct s; [discriminate | discriminate].
  - now rewrite <- Hs, string_of_list_ascii_of_string.
Qed.

Lemma double_slash_segment s :
  Firestore.is_segment s = true ->
  Firestore.double_slash (list_ascii_of_string s) = false.
Proof.
  unfold Firestore.is_segment. intros [_ Hl]%andb_true_iff.
  induction (list_ascii_of_string s) as [|c l IH]; [reflexivity |].
  simpl in *. apply andb_true_iff in Hl as [Hc Hl]. apply negb_true_iff in Hc.
  rewrite Hc. simpl. now apply IH.
Qed.

(** Components that are segments are the segments of the reference. *)
Lemma doc_of_segments path rest :
  Forall (fun c => Firestore.is_segment c = true) (path :: rest) ->
  Firestore.doc (path :: rest)
  = if Nat.even (length (path :: rest)) then
      inr (Firestore.mkRef (removelast (path :: rest)) (List.last (path :: rest) ""))
    else
      inl (Firestore.invalid_argument
             ("Invalid document reference. Document references must have an even number of segments, but "
                ++ Firestore.join_path (path :: rest) ++ " has "
                ++ JsNumber.digits (Z.of_nat (length (path :: rest))) ++ ".")).
Proof.
  intros Hall.
  assert (Hfind : forall cs,
             Forall (fun c => Firestore.is_segment c = true) cs ->
             find (fun c => Firestore.double_slash (list_ascii_of_string c)) cs = None).
  { induction 1 as [|c cs Hc _ IH]; [reflexivity |].
    simpl. now rewrite (double_slash_segment _ Hc). }
  assert (Hcut : forall cs,
             Forall (fun c => Firestore.is_segment c = true) cs ->
             concat (map Firestore.split_path cs) = cs).
  { induction 1 as [|c cs Hc _ IH]; [reflexivity |].
    simpl. now rewrite (split_path_segment _ Hc), IH. }
  assert (Hpath : String.eqb path "" = false).
  { inversion Hall as [|? ? Hc _]. unfold Firestore.is_segment in Hc.
    apply andb_true_iff in Hc as [Hc _]. now apply negb_true_iff in Hc. }
  unfold Firestore.doc. now rewrite Hpath, (Hfind _ Hall), (Hcut _ Hall).
Qed.

(** For a user's identifier and an identifier that is a segment, [doc]
    is the reference of that record. *)
Lemma doc_expense (u : User) i :
  Firestore.is_segment i = true ->
  Firestore.doc ["users"; uid u : string; "expenses"; i] = inr (expenseRef u i).
Proof.
  intros Hi. pose proof (Firestore.segment_ok (uid u)) as Hu.
  rewrite doc_of_segments; [reflexivity |].
  repeat constructor; assumption.
Qed.

(** What [doc] throws is the database's "invalid-argument" error. *)
Lemma doc_error components e :
  Firestore.doc components = inl e ->
  Js.name e = "FirebaseError" /\ Js.code e = Some "invalid-argument".
Proof.
  unfold Firestore.doc. destruct components as [|path rest]; [now intros [= <-] |].
  destruct (String.eqb path ""); [now intros [= <-] |].
  destruct (find _ _); [now intros [= <-] |].
  destruct (Nat.even _); [discriminate | now intros [= <-]].
Qed.

Lemma stored_id db ref d :
  Firestore.read db ref = Some d -> Firestore.is_segment (Firestore.id ref) = true.
Proof. intros H. now apply read_Some in H. Qed.

Lemma updateExpense_signed_in w u i next :
  signed_in w u -> Firestore.is_segment (Js.String i) = true ->
  updateExpense i next w = updateDoc (expenseRef u (Js.String i)) (update_body next) w.
Proof.
  intros Hin Hi. unfold updateExpense.
  rewrite (bind_fulfilled _ _ _ _ _ (requireUid_signed_in _ _ Hin)).
  unfold bind at 1. unfold call. now rewrite (doc_expense _ _ Hi).
Qed.

Lemma deleteExpense_signed_in w u i :
  signed_in w u -> Firestore.is_segment (Js.String i) = true ->
  deleteExpense i w
  = updateDoc (expenseRef u (Js.String i)) {[ "deleted" := Js.VBool true ]} w.
Proof.
  intros Hin Hi. unfold deleteExpense.
  rewrite (bind_fulfilled _ _ _ _ _ (requireUid_signed_in _ _ Hin)).
  unfold bind at 1. unfold call. now rewrite (doc_expense _ _ Hi).
Qed.

(** The two functions once [doc] has settled, for any identifier. *)
Lemma updateExpense_resolved w u i next ref :
  signed_in w u ->
  Firestore.doc ["users"; uid u : string; "expenses"; Js.String i] = inr ref ->
  updateExpense i next w = updateDoc ref (update_body next) w.
Proof.
  intros Hin Hdoc. unfold updateExpense.
  rewrite (bind_fulfilled _ _ _ _ _ (requireUid_signed_in _ _ Hin)).
  unfold bind at 1. unfold call. now rewrite Hdoc.
Qed.

Lemma deleteExpense_resolved w u i ref :
  signed_in w u ->
  Firestore.doc ["users"; uid u : string; "expenses"; Js.String i] = inr ref ->
  deleteExpense i w = updateDoc ref {[ "deleted" := Js.VBool true ]} w.
Proof.
  intros Hin Hdoc. unfold deleteExpense.
  rewrite (bind_fulfilled _ _ _ _ _ (requireUid_signed_in _ _ Hin)).
  unfold bind at 1. unfold call. now rewrite Hdoc.
Qed.

Lemma updateExpense_refused w u i next e :
  signed_in w u ->
  Firestore.doc ["users"; uid u : string; "expenses"; Js.String i] = inl e ->
  updateExpense i next w = (Rejected e, w).
Proof.
  intros Hin Hdoc. unfold updateExpense.
  rewrite (bind_fulfilled _ _ _ _ _ (requireUid_signed_in _ _ Hin)).
  unfold bind at 1. unfold call. now rewrite Hdoc.
Qed.

Lemma deleteExpense_refused w u i e :
  signed_in w u ->
  Firestore.doc ["users"; uid u : string; "expenses"; Js.String i] = inl e ->
  deleteExpense i w = (Rejected e, w).
Proof.
  intros Hin Hdoc. unfold deleteExpense.
  rewrite (bind_fulfilled _ _ _ _ _ (requireUid_signed_in _ _ Hin)).
  unfold bind at 1. unfold call. now rewrite Hdoc.
Qed.

(** Whatever rejects [updateExpense] for a resolved identity, it is an
    error of the database. *)
Lemma updateExpense_rejected w u i next e w' :
  signed_in w u -> updateExpense i next w = (Rejected e, w') ->
  Js.name e = "FirebaseError".
Proof.
  intros Hin. unfold updateExpense.
  rewrite (bind_fulfilled _ _ _ _ _ (requireUid_signed_in _ _ Hin)).
  unfold bind at 1. unfold call.
  destruct (Firestore.doc _) as [e0|ref] eqn:Hdoc.
  - intros [= <- <-]. now apply doc_error in Hdoc.
  - intros Hrun. now apply updateDoc_rejected in Hrun.
Qed.

Lemma updated_world_read ref fields old w :
  Firestore.read (database w) ref = Some old ->
  Firestore.read (database (updated_world ref fields old w)) ref
  = Some (Firestore.merge_fields fields old).
Proof.
  intros Hold. unfold updated_world. simpl. apply read_put_eq.
  now apply read_Some in Hold.
Qed.

Lemma updated_world_frame ref fields old w ref' :
  ref' <> ref ->
  Firestore.read (database (updated_world ref fields old w)) ref'
  = Firestore.read (database w) ref'.
Proof. intros Hne. unfold updated_world. simpl. now apply read_put_ne. Qed.

(** The fields of [body], one property of the argument at a time. *)
Lemma update_body_lookup next f :
  update_body next !! f =
    if decide (f = "deleted") then
      if Js.defined (arg_deleted next)
      then Some (Js.VBool (Js.Boolean (arg_deleted next))) else None
    else if decide (f = "cost") then
      if Js.defined (arg_cost next)
      then Some (Js.VNum (Js.Number (arg_cost next))) else None
    else if decide (f = "date") then
      if Js.defined (arg_date next) then Some (arg_date next) else None
    else if decide (f = "description") then
      if Js.defined (arg_description next) then Some (arg_description next) else None
    else None.
Proof.
  unfold update_body, assign_if.
  destruct (Js.defined (arg_deleted next)), (Js.defined (arg_cost next)),
    (Js.defined (arg_date next)), (Js.defined (arg_description next));
    repeat case_decide; subst; simplify_map_eq; reflexivity.
Qed.

Lemma merge_fields_lookup body old f :
  Firestore.merge_fields body old !! f
  = match body !! f with
    | Some v => Some v
    | None => old !! f
    end.
Proof.
  unfold Firestore.merge_fields. rewrite lookup_union.
  destruct (body !! f), (old !! f); reflexivity.
Qed.

(** C6: for a resolved identity, a backend that accepts the write and a
    stored record [old] under the identifier, [updateExpense] is fulfilled
    and the record then stored has, for each of [description], [date],
    [cost] and [deleted], the value of the partial update when it has that
    property ([cost] converted with [Number], [deleted] with [Boolean]) and
    the old value when it has not; every other field, and every other
    record, is as before. *)
Theorem updateExpense_partial (w : World) (u : User) (i : Js.Value)
    (next : ExpenseArg) (old : gmap string Js.Value)
    (Hin : signed_in w u) (Hok : firestoreFault w = None)
    (Hold : Firestore.read (database w) (expenseRef u (Js.String i)) = Some old) :
  exists w' new,
    updateExpense i next w = (Fulfilled tt, w')
    /\ Firestore.read (database w') (expenseRef u (Js.String i)) = Some new
    /\ new !! "description"
       = (if Js.defined (arg_description next) then Some (arg_description next)
          else old !! "description")
    /\ new !! "date"
       = (if Js.defined (arg_date next) then Some (arg_date next) else old !! "date")
    /\ new !! "cost"
       = (if Js.defined (arg_cost next)
          then Some (Js.VNum (Js.Number (arg_cost next))) else old !! "cost")
    /\ new !! "deleted"
       = (if Js.defined (arg_deleted next)
          then Some (Js.VBool (Js.Boolean (arg_deleted next))) else old !! "deleted")
    /\ (forall f, f ∉ ["description"; "date"; "cost"; "deleted"] -> new !! f = old !! f)
    /\ (forall ref, ref <> expenseRef u (Js.String i) ->
          Firestore.read (database w') ref = Firestore.read (database w) ref).
Proof.
  eexists. eexists.
  split; [rewrite (updateExpense_signed_in _ _ _ _ Hin (stored_id _ _ _ Hold)); apply (updateDoc_ok _ _ _ _ Hok Hold) |].
  split; [apply updated_world_read, Hold |].
  repeat split.
  - rewrite merge_fields_lookup, update_body_lookup. simpl.
    destruct (Js.defined (arg_description next)); reflexivity.
  - rewrite merge_fields_lookup, update_body_lookup. simpl.
    destruct (Js.defined (arg_date next)); reflexivity.
  - rewrite merge_fields_lookup, update_body_lookup. simpl.
    destruct (Js.defined (arg_cost next)); reflexivity.
  - rewrite merge_fields_lookup, update_body_lookup. simpl.
    destruct (Js.defined (arg_deleted next)); reflexivity.
  - intros f Hf. rewrite merge_fields_lookup, update_body_lookup.
    repeat case_decide; subst; try reflexivity; exfalso; apply Hf; set_solver.
  - intros ref Hne. now apply updated_world_frame.
Qed.

Lemma updateExpense_partial_witness :
  exists w' new,
    updateExpense (Js.VStr "e1") only_cost sample_world = (Fulfilled tt, w')
    /\ Firestore.read (database w') (expenseRef alice "e1") = Some new
    /\ new !! "cost" = Some (Js.VNum 42)
    /\ new !! "description" = Some (Js.VStr "Coffee")
    /\ new !! "date" = Some (Js.VStr "2024-01-01")
    /\ new !! "deleted" = Some (Js.VBool false)
    /\ Firestore.read (database w') (expenseRef alice "e2") = Some malformed.
Proof.
  assert (Hin : signed_in sample_world alice) by (split; [reflexivity | discriminate]).
  destruct (updateExpense_partial sample_world alice (Js.VStr "e1") only_cost coffee
              Hin eq_refl eq_refl)
    as (w' & new & Hrun & Hread & Hdesc & Hdate & Hcost & Hdel & _ & Hframe).
  exists w', new. split; [exact Hrun |]. split; [exact Hread |].
  split; [exact Hcost |]. split; [exact Hdesc |]. split; [exact Hdate |].
  split; [exact Hdel |].
  rewrite Hframe; [reflexivity | discriminate].
Defined.

(** [{ cost: 42 }] changes the cost and nothing else. *)
Corollary updateExpense_cost_only w u i old :
  signed_in w u -> firestoreFault w = None ->
  Firestore.read (database w) (expenseRef u (Js.String i)) = Some old ->
  exists w',
    updateExpense i only_cost w = (Fulfilled tt, w')
    /\ Firestore.read (database w') (expenseRef u (Js.String i))
       = Some (<["cost" := Js.VNum 42]> old).
Proof.
  intros Hin Hok Hold. eexists.
  split; [rewrite (updateExpense_signed_in _ _ _ _ Hin (stored_id _ _ _ Hold)); apply (updateDoc_ok _ _ _ _ Hok Hold) |].
  rewrite (updated_world_read _ _ _ _ Hold). f_equal. apply map_eq. intros f.
  rewrite merge_fields_lookup, update_body_lookup, lookup_insert. simpl.
  repeat case_decide; subst; try reflexivity; congruence.
Qed.

Lemma elem_of_fetched w u e :
  signed_in w u -> firestoreFault w = None ->
  e ∈ to_Expense <$> Firestore.run_query (database w) (expenses_query u) ->
  exists doc,
    Firestore.read (database w) (expenseRef u (id e)) = Some doc
    /\ doc !! "deleted" = Some (Js.VBool false).
Proof.
  intros _ _ (d & -> & Hd)%list_elem_of_fmap.
  apply elem_of_run_query in Hd as [Hlook Hsat].
  apply expenses_query_satisfied in Hsat as [Hdel _].
  exists (Firestore.data d). split; [exact Hlook | exact Hdel].
Qed.

(** C5: for a resolved identity, a backend that accepts the write and a
    stored record [old] under the identifier, [deleteExpense] is fulfilled;
    a direct read of the identifier then returns the old record with
    [deleted = true]; every record that could be read before can still be
    read, the others unchanged; and [fetchExpenses] then returns a list
    with no entry of that identifier. *)
Theorem deleteExpense_soft (w : World) (u : User) (i : Js.Value)
    (old : gmap string Js.Value)
    (Hin : signed_in w u) (Hok : firestoreFault w = None)
    (Hold : Firestore.read (database w) (expenseRef u (Js.String i)) = Some old) :
  exists w',
    deleteExpense i w = (Fulfilled tt, w')
    /\ Firestore.read (database w') (expenseRef u (Js.String i))
       = Some (<["deleted" := Js.VBool true]> old)
    /\ (forall ref, is_Some (Firestore.read (database w) ref) ->
                    is_Some (Firestore.read (database w') ref))
    /\ (forall ref, ref <> expenseRef u (Js.String i) ->
                    Firestore.read (database w') ref = Firestore.read (database w) ref)
    /\ exists l w'',
         fetchExpenses w' = (Fulfilled l, w'')
         /\ forall e, e ∈ l -> id e <> Js.String i.
Proof.
  set (ref := expenseRef u (Js.String i)) in *.
  set (w' := updated_world ref {[ "deleted" := Js.VBool true ]} old w).
  assert (Hread : Firestore.read (database w') ref
                  = Some (<["deleted" := Js.VBool true]> old)).
  { unfold w'. rewrite (updated_world_read _ _ _ _ Hold). unfold Firestore.merge_fields.
    now rewrite <- insert_union_singleton_l. }
  exists w'.
  split; [rewrite (deleteExpense_signed_in _ _ _ Hin (stored_id _ _ _ Hold)); apply (updateDoc_ok _ _ _ _ Hok Hold) |].
  split; [exact Hread |].
  split.
  { intros r Hsome. destruct (decide (r = ref)) as [-> | Hne].
    - rewrite Hread. eauto.
    - unfold w'. now rewrite updated_world_frame. }
  split; [intros r Hne; now apply updated_world_frame |].
  assert (Hin' : signed_in w' u) by exact Hin.
  assert (Hok' : firestoreFault w' = None) by exact Hok.
  eexists. eexists. split; [apply (fetchExpenses_signed_in _ _ Hin' Hok') |].
  intros e He Hid.
  destruct (elem_of_fetched _ _ _ Hin' Hok' He) as (doc & Hdoc & Hdel).
  rewrite Hid in Hdoc. fold ref in Hdoc. rewrite Hread in Hdoc.
  injection Hdoc as <-. rewrite lookup_insert_eq in Hdel. discriminate.
Qed.

Lemma deleteExpense_soft_witness :
  exists w',
    deleteExpense (Js.VStr "e1") sample_world = (Fulfilled tt, w')
    /\ Firestore.read (database w') (expenseRef alice "e1")
       = Some (<["deleted" := Js.VBool true]> coffee)
    /\ (fetchExpenses w').1
       = Fulfilled [mkExpense "e2" "true" "2024-02-01" 0 false].
Proof.
  assert (Hin : signed_in sample_world alice) by (split; [reflexivity | discriminate]).
  destruct (deleteExpense_soft sample_world alice (Js.VStr "e1") coffee Hin eq_refl eq_refl)
    as (w' & Hrun & Hread & _).
  exists w'. split; [exact Hrun |]. split; [exact Hread |].
  rewrite (deleteExpense_signed_in sample_world alice (Js.VStr "e1") Hin eq_refl) in Hrun.
  rewrite (updateDoc_ok _ _ _ _ (eq_refl : firestoreFault sample_world = None)
             (eq_refl : Firestore.read (database sample_world)
                          (expenseRef alice (Js.String (Js.VStr "e1"))) = Some coffee))
    in Hrun.
  injection Hrun as <-. vm_compute. reflexivity.
Defined.

(** C10: [updateExpense] validates nothing. For a resolved identity and
    any partial update (an empty description and a negative cost
    included), a rejection is never a validation error; and when the
    backend accepts the write to a stored record, the call is fulfilled and
    each property the update has is stored as given, [cost] converted with
    [Number] and [deleted] with [Boolean]. *)
Theorem updateExpense_unvalidated (w : World) (u : User) (i : Js.Value)
    (next : ExpenseArg) (Hin : signed_in w u) :
  (forall e w', updateExpense i next w = (Rejected e, w') -> ~ ValidationError e)
  /\ (forall old,
        firestoreFault w = None ->
        Firestore.read (database w) (expenseRef u (Js.String i)) = Some old ->
        exists w' new,
          updateExpense i next w = (Fulfilled tt, w')
          /\ Firestore.read (database w') (expenseRef u (Js.String i)) = Some new
          /\ (Js.defined (arg_description next) = true ->
              new !! "description" = Some (arg_description next))
          /\ (Js.defined (arg_date next) = true ->
              new !! "date" = Some (arg_date next))
          /\ (Js.defined (arg_cost next) = true ->
              new !! "cost" = Some (Js.VNum (Js.Number (arg_cost next))))
          /\ (Js.defined (arg_deleted next) = true ->
              new !! "deleted" = Some (Js.VBool (Js.Boolean (arg_deleted next))))).
Proof.
  split.
  - intros e w' Hrun. apply (updateExpense_rejected _ _ _ _ _ _ Hin) in Hrun as Hname.
    intros [-> | ->]; discriminate.
  - intros old Hok Hold. eexists. eexists.
    split; [rewrite (updateExpense_signed_in _ _ _ _ Hin (stored_id _ _ _ Hold));
            apply (updateDoc_ok _ _ _ _ Hok Hold) |].
    split; [apply updated_world_read, Hold |].
    repeat split; intros Hdef;
      rewrite merge_fields_lookup, update_body_lookup; simpl; now rewrite Hdef.
Qed.

Lemma updateExpense_unvalidated_witness :
  arg_description invalid_edit = Js.VStr ""
  /\ (Js.Number (arg_cost invalid_edit) <? 0)%float = true
  /\ exists w' new,
       updateExpense (Js.VStr "e1") invalid_edit sample_world = (Fulfilled tt, w')
       /\ Firestore.read (database w') (expenseRef alice "e1") = Some new
       /\ new !! "description" = Some (Js.VStr "")
       /\ new !! "cost" = Some (Js.VNum (-5)).
Proof.
  assert (Hin : signed_in sample_world alice) by (split; [reflexivity | discriminate]).
  split; [reflexivity |]. split; [reflexivity |].
  destruct (updateExpense_unvalidated sample_world alice (Js.VStr "e1") invalid_edit Hin)
    as [_ Hstored].
  destruct (Hstored coffee eq_refl eq_refl)
    as (w' & new & Hrun & Hread & Hdesc & _ & Hcost & _).
  exists w', new. split; [exact Hrun |]. split; [exact Hread |].
  split; [apply Hdesc; reflexivity | apply Hcost; reflexivity].
Defined.

(** *** [authedFetch] *)

Lemma getIdToken_pure force w : (getIdToken force w).2 = w.
Proof.
  unfold getIdToken, bind, get, settle, ret. destruct (currentUser w) as [usr|]; simpl.
  - destruct (user_getIdToken usr force); reflexivity.
  - reflexivity.
Qed.

Lemma getIdToken_run force w token :
  (getIdToken force w).1 = Fulfilled token -> getIdToken force w = (Fulfilled token, w).
Proof.
  intros Htoken. pose proof (getIdToken_pure force w) as Hpure.
  destruct (getIdToken force w) as [o w0]. simpl in *. congruence.
Qed.

(** [authedFetch] from the call of [fetch] on: the headers were built,
    the token obtained and, when there is one, set. *)
Lemma authedFetch_fetching w input init hs token hs' :
  new_Headers (default [] (init_headers init)) = inr hs ->
  (getIdToken false w).1 = Fulfilled token ->
  authorized token hs = inr hs' ->
  authedFetch input init w =
    let w1 := send (Fetch (authed_request input init hs')) w in
    match httpServer w (authed_request input init hs') with
    | Rejected e => (Rejected e, w1)
    | Fulfilled res =>
        if status res =? 401 then
          match window w with
          | Some l =>
              (Rejected Unauthorized,
               set_window (Some (mkWindow (hostname l) (assigned l ++ ["/signin"]))) w1)
          | None => (Rejected (Js.new_ReferenceError "window is not defined"), w1)
          end
        else (Fulfilled res, w1)
    end.
Proof.
  intros Hheaders Htoken Hauth. unfold authedFetch.
  unfold bind at 1. unfold call at 1. rewrite Hheaders.
  rewrite (bind_fulfilled _ _ _ _ _ (getIdToken_run _ _ _ Htoken)).
  assert (Hset : match token with
                 | Some t =>
                     if Js.Boolean (Js.VStr t)
                     then call (Headers_set "Authorization" ("Bearer " ++ t) hs)
                     else ret hs
                 | None => ret hs
                 end w = (Fulfilled hs', w)).
  { unfold authorized in Hauth. destruct token as [t|].
    - destruct (Js.Boolean (Js.VStr t)).
      + unfold call. now rewrite Hauth.
      + injection Hauth as <-. reflexivity.
    - injection Hauth as <-. reflexivity. }
  rewrite (bind_fulfilled _ _ _ _ _ Hset).
  unfold fetch. fold (authed_request input init hs').
  unfold bind at 1. unfold bind at 1. unfold modify at 1. unfold bind at 1.
  unfold get at 1. unfold settle. simpl.
  destruct (httpServer w (authed_request input init hs')) as [res|e]; [| reflexivity].
  simpl. destruct (status res =? 401); [| reflexivity].
  unfold location_assign, bind, get, modify, throw. simpl.
  destruct (window w); reflexivity.
Qed.

(** C7: once [authedFetch] has built its headers, has its token and set
    it, and the endpoint has answered the request with [res]: if the status
    is 401 and there is a browsing context, the call is rejected with the
    "Unauthorized" error and [window.location.assign] has been called once
    more, with ["/signin"]; if the status is not 401, the call is fulfilled
    with [res] and the browsing context is as before. *)
Theorem authedFetch_unauthorized (w : World) (input : string) (init : RequestInit)
    (hs hs' : gmap string string) (token : option string) (res : Response)
    (Hheaders : new_Headers (default [] (init_headers init)) = inr hs)
    (Htoken : (getIdToken false w).1 = Fulfilled token)
    (Hauth : authorized token hs = inr hs')
    (Hres : httpServer w (authed_request input init hs') = Fulfilled res) :
  (status res = 401 ->
   forall l, window w = Some l ->
   exists w',
     authedFetch input init w = (Rejected Unauthorized, w')
     /\ window w' = Some (mkWindow (hostname l) (assigned l ++ ["/signin"])))
  /\ (status res <> 401 ->
      exists w',
        authedFetch input init w = (Fulfilled res, w') /\ window w' = window w).
Proof.
  rewrite (authedFetch_fetching _ _ _ _ _ _ Hheaders Htoken Hauth). simpl.
  rewrite Hres. split.
  - intros H401 l Hwin. rewrite H401, Hwin. simpl. eexists. split; reflexivity.
  - intros Hother. apply Z.eqb_neq in Hother. rewrite Hother.
    eexists. split; reflexivity.
Qed.

Lemma authedFetch_unauthorized_witness :
  (exists w',
     authedFetch "/api/report" no_init sample_world = (Rejected Unauthorized, w')
     /\ window w' = Some (mkWindow "example.org" ["/signin"]))
  /\ (exists w',
        authedFetch "/api/report" no_init local_world
        = (Fulfilled (mkResponse 200 "ok"), w')
        /\ window w' = window local_world).
Proof.
  split.
  - destruct (authedFetch_unauthorized sample_world "/api/report" no_init ∅
                {[ "authorization" := "Bearer tok" ]} (Some "tok")
                (mkResponse 401 "") eq_refl eq_refl eq_refl eq_refl) as [H401 _].
    apply (H401 eq_refl (mkWindow "example.org" []) eq_refl).
  - destruct (authedFetch_unauthorized local_world "/api/report" no_init ∅ ∅ None
                (mkResponse 200 "ok") eq_refl eq_refl eq_refl eq_refl) as [_ Hother].
    apply Hother. discriminate.
Defined.

(** *** [signUp] *)

Lemma createUser_rejected email password w e :
  createUser w email password = Rejected e ->
  createUserWithEmailAndPassword email password w
  = (Rejected e, send (CreateUser email password) w).
Proof.
  intros H. unfold createUserWithEmailAndPassword, bind, modify, get, settle.
  simpl. now rewrite H.
Qed.

Lemma createUser_fulfilled email password w cred :
  createUser w email password = Fulfilled cred ->
  createUserWithEmailAndPassword email password w
  = (Fulfilled cred, created_world email password cred w).
Proof.
  intros H. unfold createUserWithEmailAndPassword, bind, modify, get, settle.
  simpl. now rewrite H.
Qed.

(** C8 (as amended): whatever the seeding function, when the identity
    service rejects the creation with the error [e], [signUp] is rejected
    with [e] itself (its message and its code as the service gave them);
    when the service accepts it with the credential [cred], [signUp] is
    fulfilled with [cred.user], provided the seeding of demo data, which
    runs only on [localhost] and when asked for, is not run or is
    fulfilled. *)
Theorem signUp_outcome (seedExpensesIfEmpty : string -> Z -> Async unit)
    (email password : string) (seed : bool) (w : World) :
  (forall e,
      createUser w email password = Rejected e ->
      signUp seedExpensesIfEmpty email password seed w
      = (Rejected e, send (CreateUser email password) w))
  /\ (forall cred,
      createUser w email password = Fulfilled cred ->
      (isLocal w && seed = false ->
       signUp seedExpensesIfEmpty email password seed w
       = (Fulfilled (user cred), created_world email password cred w))
      /\ (forall w2,
           isLocal w && seed = true ->
           seedExpensesIfEmpty (uid (user cred)) 100 (created_world email password cred w)
           = (Fulfilled tt, w2) ->
           signUp seedExpensesIfEmpty email password seed w
           = (Fulfilled (user cred), w2))).
Proof.
  split.
  - intros e Hrej. unfold signUp. rewrite try_rethrow.
    now rewrite (bind_rejected _ _ _ _ _ (createUser_rejected _ _ _ _ Hrej)).
  - intros cred Hacc.
    assert (Hrun : forall k : UserCredential -> Async User,
               bind (createUserWithEmailAndPassword email password) k w
               = k cred (created_world email password cred w)).
    { intros k. apply bind_fulfilled. now apply createUser_fulfilled. }
    assert (Hlocal : isLocal (created_world email password cred w) = isLocal w)
      by reflexivity.
    split.
    + intros Hno. unfold signUp. rewrite try_rethrow, Hrun.
      unfold bind at 1. unfold get. rewrite Hlocal.
      unfold truthy_object. rewrite andb_true_r, Hno. reflexivity.
    + intros w2 Hyes Hseed. unfold signUp. rewrite try_rethrow, Hrun.
      unfold bind at 1. unfold get. rewrite Hlocal.
      unfold truthy_object. rewrite andb_true_r, Hyes.
      unfold bind. rewrite Hseed. reflexivity.
Qed.

Lemma signUp_outcome_witness :
  (exists w',
     signUp seed_one "ann@example.org" "secret" true sample_world
     = (Rejected email_in_use, w')
     /\ Js.code email_in_use = Some "auth/email-already-in-use")
  /\ (exists w',
        signUp seed_one "bob@example.org" "secret" true local_world
        = (Fulfilled bob, w')
        /\ currentUser w' = Some bob).
Proof.
  split.
  - destruct (signUp_outcome seed_one "ann@example.org" "secret" true sample_world)
      as [Hrej _].
    eexists. split; [apply Hrej; reflexivity | reflexivity].
  - destruct (signUp_outcome seed_one "bob@example.org" "secret" true local_world)
      as [_ Hacc].
    destruct (Hacc (mkCredential bob) eq_refl) as [_ Hseeded].
    eexists. split; [apply Hseeded; reflexivity | reflexivity].
Defined.

(** C8 (counterexample): on [localhost] the identity service accepts the
    account of [bob] and signs him in, the seeding of demo data is refused,
    and [signUp] is rejected with the seeding's error instead of returning
    the identity record. *)
Lemma signUp_rejected_after_creation :
  createUser local_world "bob@example.org" "secret" = Fulfilled (mkCredential bob)
  /\ signUp seed_denied "bob@example.org" "secret" true local_world
     = (Rejected permission_denied,
        created_world "bob@example.org" "secret" (mkCredential bob) local_world)
  /\ currentUser (created_world "bob@example.org" "secret" (mkCredential bob) local_world)
     = Some bob.
Proof. repeat split. Qed.

(** ** Further properties of the module *)

(** *** [formatMoney] *)

Lemma Number_of_falsy n :
  Js.Boolean n = false -> Js.Number (logical_or n (Js.VNum 0)) = 0%float.
Proof. intros H. unfold logical_or. now rewrite H. Qed.

(** X1: an amount that is falsy (the number 0 or -0, NaN, the empty
    string, null, undefined) is formatted as the number 0, whatever the
    host's formatter and the currency. *)
Theorem formatMoney_falsy_is_zero (fmt : string -> float -> Js.Error + string)
    (n : Js.Value) (currency : string) (Hfalsy : Js.Boolean n = false) :
  formatMoney fmt n currency = formatMoney fmt (Js.VNum 0) currency.
Proof.
  unfold formatMoney. rewrite (Number_of_falsy _ Hfalsy).
  now rewrite (Number_of_falsy (Js.VNum 0) eq_refl).
Qed.

Lemma formatMoney_falsy_is_zero_witness :
  formatMoney dollars_only (Js.VNum nan) "USD" = "US$0.00"
  /\ formatMoney dollars_only (Js.VStr "") "EUR" = "$0.00".
Proof.
  split.
  - rewrite (formatMoney_falsy_is_zero dollars_only (Js.VNum nan) "USD" eq_refl).
    vm_compute. reflexivity.
  - rewrite (formatMoney_falsy_is_zero dollars_only (Js.VStr "") "EUR" eq_refl).
    vm_compute. reflexivity.
Defined.

Example toFixed_known :
  (fun x => toFixed x 2) <$> [4.5; 0; (-0); 1234.5; 0.125; (-2.5); 1e21; nan]%float
  = ["4.50"; "0.00"; "0.00"; "1234.50"; "0.13"; "-2.50"; "1e+21"; "NaN"].
Proof. vm_compute. reflexivity. Qed.

Example toFixed_rounds_the_exact_value :
  (fun s => toFixed (JsNumber.StringToNumber s) 2) <$> ["1.005"; "2.675"; "0.005"; "-0.001"]
  = ["1.00"; "2.67"; "0.01"; "-0.00"].
Proof. vm_compute. reflexivity. Qed.

(** *** [signIn] and [signOut] *)

(** What a [catch] block of [signIn] or [signOut] throws for [e]. *)
Lemma caught_as_fields fallback e :
  Js.name (caught_as fallback e) = "Error"
  /\ Js.message (caught_as fallback e)
     = (if String.eqb (Js.message e) "" then fallback else Js.message e)
  /\ Js.code (caught_as fallback e)
     = match Js.code e with
       | Some c => if String.eqb c "" then None else Some c
       | None => None
       end.
Proof.
  unfold caught_as, logical_or. simpl.
  destruct (Js.code e) as [c|]; [destruct (String.eqb c "") |];
    destruct (String.eqb (Js.message e) ""); simpl; auto.
Qed.

(** X2: when the identity service rejects the sign-in with [e], [signIn]
    is rejected with a new plain [Error]: its message is that of [e], or
    "Failed to sign in. Please try again." when [e] has none; its code is
    that of [e] when [e] has a non-empty one, and absent otherwise. The
    seeding is not run. *)
Theorem signIn_rejection (service : string -> string -> Async UserCredential)
    (seeding : string -> Z -> Async unit) (email password : string)
    (w w1 : World) (e : Js.Error)
    (Hrej : service email password w = (Rejected e, w1)) :
  exists err,
    signIn service seeding email password w = (Rejected err, w1)
    /\ Js.name err = "Error"
    /\ Js.message err
       = (if String.eqb (Js.message e) "" then "Failed to sign in. Please try again."
          else Js.message e)
    /\ Js.code err
       = match Js.code e with
         | Some c => if String.eqb c "" then None else Some c
         | None => None
         end.
Proof.
  exists (caught_as "Failed to sign in. Please try again." e).
  split; [| apply caught_as_fields].
  unfold signIn, try_catch. rewrite (bind_rejected _ _ _ _ _ Hrej). reflexivity.
Qed.

Lemma signIn_rejection_witness :
  (exists err,
     signIn refuse_sign_in seed_one "ann@example.org" "guess" local_world
     = (Rejected err, local_world)
     /\ Js.message err = "Firebase: Error (auth/wrong-password)."
     /\ Js.code err = Some "auth/wrong-password")
  /\ (exists err,
        signIn (fun _ _ => throw silent_error) seed_one "ann@example.org" "guess" local_world
        = (Rejected err, local_world)
        /\ Js.message err = "Failed to sign in. Please try again."
        /\ Js.code err = None).
Proof.
  split.
  - destruct (signIn_rejection refuse_sign_in seed_one "ann@example.org" "guess"
                local_world local_world wrong_password eq_refl)
      as (err & Hrun & _ & Hmsg & Hcode).
    exists err. split; [exact Hrun |]. split; [exact Hmsg | exact Hcode].
  - destruct (signIn_rejection (fun _ _ => throw silent_error) seed_one
                "ann@example.org" "guess" local_world local_world silent_error eq_refl)
      as (err & Hrun & _ & Hmsg & Hcode).
    exists err. split; [exact Hrun |]. split; [exact Hmsg | exact Hcode].
Defined.

(** X3: on [localhost], when the identity service has accepted the
    sign-in and the seeding of demo data is then rejected with [e],
    [signIn] is rejected, with [e] rewritten as a sign-in failure (a plain
    [Error] with the message of [e], or the sign-in fallback message, and
    the code of [e]). *)
Theorem signIn_seeding_failure (service : string -> string -> Async UserCredential)
    (seeding : string -> Z -> Async unit) (email password : string)
    (w w1 w2 : World) (cred : UserCredential) (e : Js.Error)
    (Hacc : service email password w = (Fulfilled cred, w1))
    (Hlocal : isLocal w1 = true)
    (Hseed : seeding (uid (user cred)) 100 w1 = (Rejected e, w2)) :
  signIn service seeding email password w
  = (Rejected (caught_as "Failed to sign in. Please try again." e), w2).
Proof.
  unfold signIn, try_catch. rewrite (bind_fulfilled _ _ _ _ _ Hacc).
  unfold bind at 1. unfold get. rewrite Hlocal. simpl.
  unfold bind. now rewrite Hseed.
Qed.

Lemma signIn_seeding_failure_witness :
  exists w2,
    signIn accept_bob seed_denied "bob@example.org" "secret" local_world
    = (Rejected (Js.mkError "Error" "Missing or insufficient permissions."
                   (Some "permission-denied")), w2)
    /\ currentUser w2 = Some bob.
Proof.
  exists (set_currentUser (Some bob) local_world). split.
  - apply (signIn_seeding_failure accept_bob seed_denied "bob@example.org" "secret"
             local_world (set_currentUser (Some bob) local_world)
             (set_currentUser (Some bob) local_world) (mkCredential bob)
             permission_denied);
      reflexivity.
  - reflexivity.
Defined.

(** X4: on [localhost] and with [seed] set, when the identity service has
    created the account and the seeding is then rejected with [e], [signUp]
    is rejected with [e] itself, although the account exists: the seeding
    started from the world in which the request was sent and the new user
    is the current one. *)
Theorem signUp_seeding_failure (seeding : string -> Z -> Async unit)
    (email password : string) (w w2 : World) (cred : UserCredential) (e : Js.Error)
    (Hacc : createUser w email password = Fulfilled cred)
    (Hlocal : isLocal w = true)
    (Hseed : seeding (uid (user cred)) 100 (created_world email password cred w)
             = (Rejected e, w2)) :
  signUp seeding email password true w = (Rejected e, w2)
  /\ currentUser (created_world email password cred w) = Some (user cred)
  /\ requests (created_world email password cred w)
     = (requests w ++ [CreateUser email password])%list.
Proof.
  split; [| split; reflexivity].
  unfold signUp. rewrite try_rethrow.
  rewrite (bind_fulfilled _ _ _ _ _ (createUser_fulfilled _ _ _ _ Hacc)).
  unfold bind at 1. unfold get.
  assert (Hl : isLocal (created_world email password cred w) = true) by exact Hlocal.
  rewrite Hl. simpl. unfold bind. now rewrite Hseed.
Qed.

Lemma signUp_seeding_failure_witness :
  exists w2,
    signUp seed_denied "bob@example.org" "secret" true local_world
    = (Rejected permission_denied, w2)
    /\ currentUser w2 = Some bob.
Proof.
  exists (created_world "bob@example.org" "secret" (mkCredential bob) local_world).
  split.
  - apply (signUp_seeding_failure seed_denied "bob@example.org" "secret" local_world
             (created_world "bob@example.org" "secret" (mkCredential bob) local_world)
             (mkCredential bob) permission_denied);
      reflexivity.
  - reflexivity.
Defined.

(** X5: the seeding runs on [localhost] only, and for [signUp] only when
    asked for: elsewhere [signUp] and [signIn] do the same whatever the
    seeding function is. *)
Theorem seeding_only_on_localhost (service : string -> string -> Async UserCredential)
    (seeding seeding' : string -> Z -> Async unit) (email password : string)
    (seed : bool) (w : World)
    (Hup : isLocal w && seed = false)
    (Hin : isLocal (service email password w).2 = false) :
  signUp seeding email password seed w = signUp seeding' email password seed w
  /\ signIn service seeding email password w = signIn service seeding' email password w.
Proof.
  split.
  - unfold signUp. rewrite !try_rethrow.
    destruct (createUser w email password) as [cred|e] eqn:Hc.
    + rewrite !(bind_fulfilled _ _ _ _ _ (createUser_fulfilled _ _ _ _ Hc)).
      unfold bind at 1 3. unfold get.
      assert (Hl : isLocal (created_world email password cred w) = isLocal w)
        by reflexivity.
      rewrite Hl. unfold truthy_object. rewrite andb_true_r, Hup. reflexivity.
    + now rewrite !(bind_rejected _ _ _ _ _ (createUser_rejected _ _ _ _ Hc)).
  - unfold signIn, try_catch.
    destruct (service email password w) as [[cred|e] w1] eqn:Hs; simpl in Hin.
    + rewrite !(bind_fulfilled _ _ _ _ _ Hs).
      unfold bind at 1 3. unfold get. rewrite Hin. reflexivity.
    + now rewrite !(bind_rejected _ _ _ _ _ Hs).
Qed.

Lemma seeding_only_on_localhost_witness :
  signUp seed_one "ann@example.org" "secret" true sample_world
  = signUp seed_denied "ann@example.org" "secret" true sample_world
  /\ signIn accept_bob seed_one "bob@example.org" "secret" sample_world
     = signIn accept_bob seed_denied "bob@example.org" "secret" sample_world
  /\ (signIn accept_bob seed_denied "bob@example.org" "secret" sample_world).1
     = Fulfilled (Some bob).
Proof.
  destruct (seeding_only_on_localhost accept_bob seed_one seed_denied
              "bob@example.org" "secret" true sample_world eq_refl eq_refl)
    as [_ Hin].
  destruct (seeding_only_on_localhost accept_bob seed_one seed_denied
              "ann@example.org" "secret" true sample_world eq_refl eq_refl)
    as [Hup _].
  split; [exact Hup |]. split; [exact Hin | reflexivity].
Defined.

(** X6: with no identity resolved [signOut] is fulfilled at once and the
    world is as before: the identity service is not called, whatever it
    would do. *)
Theorem signOut_signed_out (service : Async unit) (w : World)
    (Hout : currentUser w = None) :
  signOut service w = (Fulfilled tt, w).
Proof. unfold signOut, bind, get. now rewrite Hout. Qed.

Lemma signOut_signed_out_witness :
  signOut (throw permission_denied) signed_out_world = (Fulfilled tt, signed_out_world).
Proof. apply (signOut_signed_out (throw permission_denied) signed_out_world eq_refl). Defined.

(** X7: with an identity resolved, [signOut] is what the identity service
    makes of it when that is fulfilled; when the service rejects with [e],
    [signOut] is rejected with a new plain [Error] carrying the message of
    [e], or "Failed to sign out. Please try again." when [e] has none, and
    the code of [e] when it has a non-empty one. *)
Theorem signOut_signed_in (service : Async unit) (w w1 : World) (u : User)
    (Hu : currentUser w = Some u) :
  (service w = (Fulfilled tt, w1) -> signOut service w = (Fulfilled tt, w1))
  /\ (forall e,
        service w = (Rejected e, w1) ->
        exists err,
          signOut service w = (Rejected err, w1)
          /\ Js.name err = "Error"
          /\ Js.message err
             = (if String.eqb (Js.message e) ""
                then "Failed to sign out. Please try again." else Js.message e)
          /\ Js.code err
             = match Js.code e with
               | Some c => if String.eqb c "" then None else Some c
               | None => None
               end).
Proof.
  split.
  - intros Hs. unfold signOut, bind, get, try_catch. now rewrite Hu, Hs.
  - intros e Hs. exists (caught_as "Failed to sign out. Please try again." e).
    split; [| apply caught_as_fields].
    unfold signOut, bind, get, try_catch. now rewrite Hu, Hs.
Qed.

Lemma signOut_signed_in_witness :
  (exists w1,
     signOut clear_user sample_world = (Fulfilled tt, w1) /\ currentUser w1 = None)
  /\ (exists err,
        signOut (throw silent_error) sample_world = (Rejected err, sample_world)
        /\ Js.message err = "Failed to sign out. Please try again."
        /\ Js.code err = None).
Proof.
  split.
  - destruct (signOut_signed_in clear_user sample_world
                (set_currentUser None sample_world) alice eq_refl) as [Hok _].
    eexists. split; [apply Hok; reflexivity | reflexivity].
  - destruct (signOut_signed_in (throw silent_error) sample_world sample_world alice
                eq_refl) as [_ Hrej].
    destruct (Hrej silent_error eq_refl) as (err & Hrun & _ & Hmsg & Hcode).
    exists err. split; [exact Hrun |]. split; [exact Hmsg | exact Hcode].
Defined.

(** *** [authedFetch]: the request it sends *)

Lemma getIdToken_signed_out force w :
  currentUser w = None -> getIdToken force w = (Fulfilled None, w).
Proof. intros Hu. unfold getIdToken, bind, get. now rewrite Hu. Qed.

Lemma getIdToken_signed_in force w u :
  currentUser w = Some u ->
  getIdToken force w
  = (match user_getIdToken u force with
     | Fulfilled t => Fulfilled (Some t)
     | Rejected e => Rejected e
     end, w).
Proof.
  intros Hu. unfold getIdToken, bind, get, settle, ret. rewrite Hu.
  now destruct (user_getIdToken u force).
Qed.

Lemma authedFetch_requests w input init hs token hs' :
  new_Headers (default [] (init_headers init)) = inr hs ->
  (getIdToken false w).1 = Fulfilled token ->
  authorized token hs = inr hs' ->
  requests (authedFetch input init w).2
  = (requests w ++ [Fetch (authed_request input init hs')])%list.
Proof.
  intros Hheaders Htoken Hauth.
  rewrite (authedFetch_fetching _ _ _ _ _ _ Hheaders Htoken Hauth). simpl.
  destruct (httpServer w (authed_request input init hs')) as [res|e]; [| reflexivity].
  destruct (status res =? 401); [destruct (window w) |]; reflexivity.
Qed.

Lemma lower_idem c : lower (lower c) = lower c.
Proof. destruct c as [[] [] [] [] [] [] [] []]; reflexivity. Qed.

Lemma lowercase_idem s : lowercase (lowercase s) = lowercase s.
Proof. induction s as [|c s IH]; simpl; [reflexivity | now rewrite lower_idem, IH]. Qed.

(** The names in a [Headers] object are in lower case. *)
Lemma Headers_fill_lowercase init :
  forall h h' : gmap string string,
    (forall n v, h !! n = Some v -> lowercase n = n) ->
    Headers_fill h init = inr h' ->
    forall n v, h' !! n = Some v -> lowercase n = n.
Proof.
  induction init as [|[k x] l IH]; intros h h' Hh Hfill; simpl in Hfill.
  - injection Hfill as <-. exact Hh.
  - destruct (Headers_append h (k, x)) as [e|h1] eqn:Happ; [discriminate |].
    apply (IH h1 h'); [| exact Hfill].
    unfold Headers_append in Happ. simpl in Happ.
    destruct (validate_header k (normalize_value x)); [discriminate |].
    intros n' v'. destruct (h !! lowercase k); injection Happ as <-;
      rewrite lookup_insert; case_decide; subst; eauto using lowercase_idem.
Qed.

Lemma new_Headers_lowercase init hs n v :
  new_Headers init = inr hs -> hs !! n = Some v -> lowercase n = n.
Proof.
  unfold new_Headers. intros Hfill. apply (Headers_fill_lowercase init ∅ hs); [| exact Hfill].
  intros n' v'. now rewrite lookup_empty.
Qed.

Lemma Headers_set_authorization value hs :
  is_header_value (normalize_value value) = true ->
  Headers_set "Authorization" value hs
  = inr (<["authorization" := normalize_value value]> hs).
Proof.
  intros Hvalue. unfold Headers_set, validate_header. rewrite Hvalue. reflexivity.
Qed.

(** X8: when the caller's headers are accepted and the current user's
    token cannot be obtained ([getIdToken] rejects with [e]), [authedFetch]
    is rejected with [e] and the world is as before: [fetch] is not called
    and nothing is redirected. *)
Theorem authedFetch_token_failure (w : World) (u : User) (input : string)
    (init : RequestInit) (hs : gmap string string) (e : Js.Error)
    (Hheaders : new_Headers (default [] (init_headers init)) = inr hs)
    (Hu : currentUser w = Some u)
    (Htoken : user_getIdToken u false = Rejected e) :
  authedFetch input init w = (Rejected e, w).
Proof.
  unfold authedFetch. unfold bind at 1. unfold call at 1. rewrite Hheaders.
  apply bind_rejected.
  rewrite (getIdToken_signed_in _ _ _ Hu). now rewrite Htoken.
Qed.

Lemma authedFetch_token_failure_witness :
  authedFetch "/api/report" no_init carol_world = (Rejected permission_denied, carol_world)
  /\ requests carol_world = [].
Proof.
  split; [| reflexivity].
  apply (authedFetch_token_failure carol_world carol "/api/report" no_init ∅
           permission_denied eq_refl eq_refl eq_refl).
Defined.

(** X9: when the headers and the token are accepted and the call of
    [fetch] fails (no response: it rejects with [e]), [authedFetch] is
    rejected with [e] unchanged, after that one call, and the browsing
    context is not redirected. *)
Theorem authedFetch_network_failure (w : World) (input : string) (init : RequestInit)
    (hs hs' : gmap string string) (token : option string) (e : Js.Error)
    (Hheaders : new_Headers (default [] (init_headers init)) = inr hs)
    (Htoken : (getIdToken false w).1 = Fulfilled token)
    (Hauth : authorized token hs = inr hs')
    (Hres : httpServer w (authed_request input init hs') = Rejected e) :
  exists w',
    authedFetch input init w = (Rejected e, w')
    /\ window w' = window w
    /\ requests w' = (requests w ++ [Fetch (authed_request input init hs')])%list.
Proof.
  rewrite (authedFetch_fetching _ _ _ _ _ _ Hheaders Htoken Hauth). simpl.
  rewrite Hres. eexists. split; [reflexivity |]. split; reflexivity.
Qed.

Lemma authedFetch_network_failure_witness :
  exists w',
    authedFetch "/api/report" no_init offline_world
    = (Rejected (Js.new_TypeError "Failed to fetch"), w')
    /\ window w' = Some (mkWindow "example.org" []).
Proof.
  destruct (authedFetch_network_failure offline_world "/api/report" no_init ∅
              {[ "authorization" := "Bearer tok" ]} (Some "tok")
              (Js.new_TypeError "Failed to fetch") eq_refl eq_refl eq_refl eq_refl)
    as (w' & Hrun & Hwin & _).
  exists w'. split; [exact Hrun | exact Hwin].
Defined.

(** X10: for a current user with a non-empty token [t], when [Headers]
    accepts the caller's headers (as [hs]) and the value made of the token,
    [authedFetch] calls [fetch] exactly once, with the given URL, method and
    body, whatever the answer. The [authorization] header passed is
    ["Bearer " ++ t] without the white space at its ends; every header name
    is in lower case, so an authorization header of the caller's, however
    it was cased, is replaced; the other headers are those of [hs]. *)
Theorem authedFetch_bearer (w : World) (u : User) (input : string)
    (init : RequestInit) (hs : gmap string string) (t : string)
    (Hheaders : new_Headers (default [] (init_headers init)) = inr hs)
    (Hu : currentUser w = Some u)
    (Htoken : user_getIdToken u false = Fulfilled t)
    (Ht : t <> "")
    (Hvalue : is_header_value (normalize_value ("Bearer " ++ t)) = true) :
  exists req,
    requests (authedFetch input init w).2 = (requests w ++ [Fetch req])%list
    /\ url req = input /\ method req = init_method init /\ body req = init_body init
    /\ headers req !! "authorization" = Some (normalize_value ("Bearer " ++ t))
    /\ (forall n v, headers req !! n = Some v -> lowercase n = n)
    /\ (forall n, n <> "authorization" -> headers req !! n = hs !! n).
Proof.
  exists (authed_request input init
            (<["authorization" := normalize_value ("Bearer " ++ t)]> hs)).
  assert (Hget : (getIdToken false w).1 = Fulfilled (Some t)).
  { rewrite (getIdToken_signed_in _ _ _ Hu). now rewrite Htoken. }
  assert (Hauth : authorized (Some t) hs
                  = inr (<["authorization" := normalize_value ("Bearer " ++ t)]> hs)).
  { unfold authorized. simpl.
    destruct (String.eqb_spec t "") as [Hempty | _]; [contradiction |]. simpl.
    now apply Headers_set_authorization. }
  split; [apply (authedFetch_requests _ _ _ _ _ _ Hheaders Hget Hauth) |].
  do 3 (split; [reflexivity |]).
  unfold authed_request. simpl.
  split; [apply lookup_insert_eq |]. split.
  - intros n v. rewrite lookup_insert. case_decide; [now subst |].
    apply (new_Headers_lowercase _ _ _ _ Hheaders).
  - intros n Hn. now rewrite lookup_insert_ne.
Qed.

Lemma authedFetch_bearer_witness :
  exists req,
    requests (authedFetch "/api/report" own_headers sample_world).2 = [Fetch req]
    /\ method req = Some "POST"
    /\ headers req !! "authorization" = Some "Bearer tok"
    /\ headers req !! "AUTHORIZATION" = None
    /\ headers req !! "accept" = Some "text/plain".
Proof.
  destruct (authedFetch_bearer sample_world alice "/api/report" own_headers
              {[ "authorization" := "Basic abc"; "accept" := "text/plain" ]} "tok"
              eq_refl eq_refl eq_refl)
    as (req & Hreq & _ & Hm & _ & Hauth & Hlow & Hother);
    [discriminate | reflexivity |].
  exists req. split; [exact Hreq |]. split; [exact Hm |]. split; [exact Hauth |].
  split.
  - destruct (headers req !! "AUTHORIZATION") as [v|] eqn:Hv; [| reflexivity].
    apply Hlow in Hv. discriminate.
  - rewrite Hother; [reflexivity | discriminate].
Defined.

(** X11: with no identity resolved and the caller's headers accepted (as
    [hs]), [authedFetch] still calls [fetch], once, unlike the CRUD
    functions, and adds no header: the headers passed are [hs]. *)
Theorem authedFetch_anonymous (w : World) (input : string) (init : RequestInit)
    (hs : gmap string string)
    (Hheaders : new_Headers (default [] (init_headers init)) = inr hs)
    (Hout : currentUser w = None) :
  exists req,
    requests (authedFetch input init w).2 = (requests w ++ [Fetch req])%list
    /\ url req = input /\ method req = init_method init /\ body req = init_body init
    /\ headers req = hs.
Proof.
  exists (authed_request input init hs).
  assert (Hget : (getIdToken false w).1 = Fulfilled None)
    by now rewrite (getIdToken_signed_out _ _ Hout).
  split; [apply (authedFetch_requests _ _ _ _ _ _ Hheaders Hget eq_refl) |].
  repeat split.
Qed.

Lemma authedFetch_anonymous_witness :
  exists req,
    requests (authedFetch "/api/report" no_init local_world).2 = [Fetch req]
    /\ headers req = ∅.
Proof.
  destruct (authedFetch_anonymous local_world "/api/report" no_init ∅ eq_refl eq_refl)
    as (req & Hreq & _ & _ & _ & Hh).
  exists req. split; [exact Hreq | exact Hh].
Defined.

(** X12: where there is no [window] (outside a browser), a response with
    status 401 to the request [authedFetch] has built makes it reject with
    a [ReferenceError], not with the "Unauthorized" error: the redirect is
    attempted first, and unguarded. *)
Theorem authedFetch_401_without_window (w : World) (input : string)
    (init : RequestInit) (hs hs' : gmap string string) (token : option string)
    (res : Response)
    (Hheaders : new_Headers (default [] (init_headers init)) = inr hs)
    (Htoken : (getIdToken false w).1 = Fulfilled token)
    (Hauth : authorized token hs = inr hs')
    (Hres : httpServer w (authed_request input init hs') = Fulfilled res)
    (H401 : status res = 401)
    (Hwin : window w = None) :
  exists e w',
    authedFetch input init w = (Rejected e, w')
    /\ Js.name e = "ReferenceError" /\ e <> Unauthorized /\ window w' = None.
Proof.
  rewrite (authedFetch_fetching _ _ _ _ _ _ Hheaders Htoken Hauth). simpl.
  rewrite Hres, H401, Hwin. simpl. eexists. eexists.
  split; [reflexivity |]. split; [reflexivity |]. split; [discriminate | exact Hwin].
Qed.

Lemma authedFetch_401_without_window_witness :
  exists e w',
    authedFetch "/api/report" no_init server_side_world = (Rejected e, w')
    /\ Js.name e = "ReferenceError" /\ e <> Unauthorized /\ window w' = None.
Proof.
  apply (authedFetch_401_without_window server_side_world "/api/report" no_init ∅
           {[ "authorization" := "Bearer tok" ]} (Some "tok") (mkResponse 401 "")
           eq_refl eq_refl eq_refl eq_refl eq_refl eq_refl).
Defined.

(** X24: headers that [Headers] refuses (a name that is not a token, a
    value holding a line feed, ...) make [authedFetch] reject with the
    error [Headers] throws, before anything else: the token is not asked
    for, [fetch] is not called, and the world is as before. *)
Theorem authedFetch_invalid_headers (w : World) (input : string) (init : RequestInit)
    (e : Js.Error)
    (Hheaders : new_Headers (default [] (init_headers init)) = inl e) :
  authedFetch input init w = (Rejected e, w).
Proof.
  unfold authedFetch. unfold bind at 1. unfold call at 1. now rewrite Hheaders.
Qed.

Lemma authedFetch_invalid_headers_witness :
  authedFetch "/api/report" spaced_header sample_world
  = (Rejected (Js.new_TypeError "Invalid name"), sample_world).
Proof.
  apply (authedFetch_invalid_headers sample_world "/api/report" spaced_header
           (Js.new_TypeError "Invalid name") eq_refl).
Defined.

(** X25: a token that [headers.set] refuses in ["Bearer " ++ t] (one
    holding a line feed, say) makes [authedFetch] reject with the error of
    [headers.set]; [fetch] is not called and the world is as before. *)
Theorem authedFetch_invalid_token (w : World) (u : User) (input : string)
    (init : RequestInit) (hs : gmap string string) (t : string) (e : Js.Error)
    (Hheaders : new_Headers (default [] (init_headers init)) = inr hs)
    (Hu : currentUser w = Some u)
    (Htoken : user_getIdToken u false = Fulfilled t)
    (Ht : t <> "")
    (Hset : Headers_set "Authorization" ("Bearer " ++ t) hs = inl e) :
  authedFetch input init w = (Rejected e, w).
Proof.
  unfold authedFetch. unfold bind at 1. unfold call at 1. rewrite Hheaders.
  assert (Hget : getIdToken false w = (Fulfilled (Some t), w)).
  { rewrite (getIdToken_signed_in _ _ _ Hu). now rewrite Htoken. }
  rewrite (bind_fulfilled _ _ _ _ _ Hget). apply bind_rejected.
  simpl. destruct (String.eqb_spec t "") as [Hempty | _]; [contradiction |]. simpl.
  unfold call. now rewrite Hset.
Qed.

Lemma authedFetch_invalid_token_witness :
  authedFetch "/api/report" no_init dave_world
  = (Rejected (Js.new_TypeError "Invalid value"), dave_world).
Proof.
  apply (authedFetch_invalid_token dave_world dave "/api/report" no_init ∅ broken_token
           (Js.new_TypeError "Invalid value") eq_refl eq_refl eq_refl).
  - discriminate.
  - reflexivity.
Defined.

(** *** Expense CRUD: what is stored and what is read back *)

Lemma resolved_payload expense t now :
  Firestore.resolve now <$> expense_payload expense t
  = <["description" := Js.VStr t]>
    (<["date" := Js.VStr (Js.String (arg_date expense))]>
    (<["cost" := Js.VNum (Js.Number (arg_cost expense))]>
    (<["deleted" := Js.VBool false]>
    (<["createdAt" := Js.VTimestamp now.1 now.2]> ∅)))).
Proof. unfold expense_payload. rewrite !fmap_insert, fmap_empty. reflexivity. Qed.

Lemma put_same db ref d :
  Firestore.read db ref = Some d -> Firestore.put db ref d = db.
Proof.
  intros [_ Hraw]%read_Some. unfold Firestore.put.
  unfold Firestore.raw_documents in *.
  destruct (db !! Firestore.parent ref) as [docs|] eqn:Hdocs; simpl in *.
  - rewrite (insert_id docs _ _ Hraw). now apply insert_id.
  - rewrite lookup_empty in Hraw. discriminate.
Qed.

Lemma put_put db ref d d' :
  Firestore.put (Firestore.put db ref d) ref d' = Firestore.put db ref d'.
Proof.
  unfold Firestore.put at 1. rewrite raw_put_eq. unfold Firestore.put.
  now rewrite insert_insert_eq, insert_insert_eq.
Qed.

Lemma documents_put_ne db ref d col :
  Firestore.parent ref <> col ->
  Firestore.documents (Firestore.put db ref d) col = Firestore.documents db col.
Proof.
  intros Hne. unfold Firestore.documents. now rewrite (raw_put_ne _ _ _ _ Hne).
Qed.

(** The outcome of [fetchExpenses], case by case. *)
Lemma fetchExpenses_outcome w :
  (fetchExpenses w).1
  = match currentUser w with
    | Some u =>
        if negb (Js.Boolean (Js.VStr (uid u))) then Rejected NotSignedIn
        else match firestoreFault w with
             | Some (c, m) => Rejected (Firestore.FirebaseError c m)
             | None =>
                 Fulfilled (to_Expense
                              <$> Firestore.run_query (database w) (expenses_query u))
             end
    | None => Rejected NotSignedIn
    end.
Proof.
  unfold fetchExpenses, requireUid, getDocs, firestore_call, bind, get, modify, throw, ret.
  destruct (currentUser w) as [u|]; simpl; [| reflexivity].
  destruct (negb _); simpl; [reflexivity |].
  destruct (firestoreFault w) as [[c m]|]; reflexivity.
Qed.

(** X13: [fetchExpenses] only reads. Whoever calls it and whatever the
    outcome, the stored documents, the identity and the browsing context
    are as before, and at most one request, a query, has been sent. *)
Theorem fetchExpenses_reads_only (w : World) :
  database (fetchExpenses w).2 = database w
  /\ currentUser (fetchExpenses w).2 = currentUser w
  /\ window (fetchExpenses w).2 = window w
  /\ (requests (fetchExpenses w).2 = requests w
      \/ exists q, requests (fetchExpenses w).2 = (requests w ++ [GetDocs q])%list).
Proof.
  unfold fetchExpenses, requireUid, getDocs, firestore_call, bind, get, modify, throw, ret.
  destruct (currentUser w) as [u|] eqn:Hu; simpl; [| repeat split; eauto].
  destruct (negb _); simpl; [repeat split; eauto |].
  destruct (firestoreFault w) as [[c m]|]; simpl; repeat split; eauto.
Qed.

(** X14: the result of [fetchExpenses] depends on the caller's own
    collection only: storing a document anywhere else (under another user,
    say) leaves its outcome unchanged. *)
Theorem fetchExpenses_own_collection (w : World) (u : User)
    (ref : Firestore.DocumentReference) (d : gmap string Js.Value)
    (Hu : currentUser w = Some u)
    (Hother : Firestore.parent ref <> expensesCol (uid u)) :
  (fetchExpenses (set_database (Firestore.put (database w) ref d) w)).1
  = (fetchExpenses w).1.
Proof.
  rewrite !fetchExpenses_outcome. simpl. rewrite Hu.
  destruct (negb _); [reflexivity |].
  destruct (firestoreFault w) as [[c m]|]; [reflexivity |].
  do 2 f_equal. unfold Firestore.run_query, Firestore.matching. simpl.
  now rewrite (documents_put_ne _ _ _ _ Hother).
Qed.

Lemma fetchExpenses_own_collection_witness :
  (fetchExpenses
     (set_database
        (Firestore.put (database sample_world) (expenseRef bob "b1") coffee)
        sample_world)).1
  = Fulfilled [mkExpense "e2" "true" "2024-02-01" 0 false;
               mkExpense "e1" "Coffee" "2024-01-01" 4.5 false].
Proof.
  rewrite (fetchExpenses_own_collection sample_world alice (expenseRef bob "b1") coffee
             eq_refl);
    [vm_compute; reflexivity | discriminate].
Defined.

Lemma fetchExpenses_fulfilled w l :
  (fetchExpenses w).1 = Fulfilled l ->
  exists u,
    signed_in w u /\ firestoreFault w = None
    /\ l = to_Expense <$> Firestore.run_query (database w) (expenses_query u).
Proof.
  rewrite fetchExpenses_outcome.
  destruct (currentUser w) as [u|] eqn:Hu; [| discriminate].
  destruct (negb _) eqn:Hid; [discriminate |].
  destruct (firestoreFault w) as [[c m]|]; [discriminate |].
  intros [= <-]. exists u. split; [| split; reflexivity].
  split; [exact Hu |]. intros Hempty. rewrite Hempty in Hid. discriminate.
Qed.

(** X15: no expense that [fetchExpenses] returns is marked deleted, and
    each is a stored record of the caller: its identifier reads back, from
    the caller's collection, a document whose [deleted] field is [false]. *)
Theorem fetchExpenses_none_deleted (w : World) (l : list Expense)
    (Hrun : (fetchExpenses w).1 = Fulfilled l) :
  exists u,
    currentUser w = Some u
    /\ forall e, e ∈ l ->
         deleted e = false
         /\ exists doc,
              Firestore.read (database w) (expenseRef u (id e)) = Some doc
              /\ doc !! "deleted" = Some (Js.VBool false).
Proof.
  destruct (fetchExpenses_fulfilled _ _ Hrun) as (u & Hin & Hok & ->).
  exists u. split; [apply Hin |].
  intros e (d & -> & Hd)%list_elem_of_fmap.
  apply elem_of_run_query in Hd as [Hlook Hsat].
  apply expenses_query_satisfied in Hsat as [Hdel _].
  split.
  - unfold to_Expense, Firestore.field. simpl. now rewrite Hdel.
  - exists (Firestore.data d). split; [exact Hlook | exact Hdel].
Qed.

Lemma fetchExpenses_none_deleted_witness :
  exists u,
    currentUser sample_world = Some u
    /\ forall e,
         e ∈ [mkExpense "e2" "true" "2024-02-01" 0 false;
              mkExpense "e1" "Coffee" "2024-01-01" 4.5 false] ->
         deleted e = false
         /\ exists doc,
              Firestore.read (database sample_world) (expenseRef u (id e)) = Some doc
              /\ doc !! "deleted" = Some (Js.VBool false).
Proof.
  apply (fetchExpenses_none_deleted sample_world). vm_compute. reflexivity.
Defined.

Lemma payload_date expense t now :
  (Firestore.resolve now <$> expense_payload expense t) !! "date"
  = Some (Js.VStr (Js.String (arg_date expense))).
Proof.
  rewrite resolved_payload.
  rewrite lookup_insert_ne by discriminate. now rewrite lookup_insert_eq.
Qed.

Lemma payload_cost expense t now :
  (Firestore.resolve now <$> expense_payload expense t) !! "cost"
  = Some (Js.VNum (Js.Number (arg_cost expense))).
Proof.
  rewrite resolved_payload.
  rewrite !lookup_insert_ne by discriminate. now rewrite lookup_insert_eq.
Qed.

(** X16: writing then reading. For a resolved identity, a backend that
    answers, a non-empty string description and a cost that is neither NaN
    nor negative, [addExpense] is fulfilled and a following [fetchExpenses]
    returns, under the new identifier, the description trimmed, the date as
    a string, the cost as a number and [deleted = false]. *)
Theorem addExpense_then_fetchExpenses (w : World) (u : User) (expense : ExpenseArg)
    (s : string)
    (Hin : signed_in w u) (Hok : firestoreFault w = None)
    (Hd : arg_description expense = Js.VStr s) (Hs : s <> "")
    (Hnan : Js.isNaN (Js.Number (arg_cost expense)) = false)
    (Hneg : (Js.Number (arg_cost expense) <? 0)%float = false) :
  exists w' l w'',
    addExpense expense w = (Fulfilled tt, w')
    /\ fetchExpenses w' = (Fulfilled l, w'')
    /\ mkExpense (autoIds w (added w)) (Js.trim s) (Js.String (arg_date expense))
         (Js.Number (arg_cost expense)) false ∈ l.
Proof.
  set (payload := expense_payload expense (Js.trim s)).
  set (w' := added_world (expensesCol (uid u)) payload w).
  assert (Hin' : signed_in w' u) by exact Hin.
  assert (Hok' : firestoreFault w' = None) by exact Hok.
  exists w'. eexists. eexists.
  split; [apply (addExpense_accepts _ _ _ _ Hin Hok Hd Hs Hnan Hneg) |].
  split; [apply (fetchExpenses_signed_in _ _ Hin' Hok') |].
  apply list_elem_of_fmap.
  exists (Firestore.mkSnapshot (autoIds w (added w))
            (Firestore.resolve (serverTime w) <$> payload)).
  split.
  - unfold to_Expense, Firestore.field, payload. simpl.
    now rewrite payload_description, payload_date, payload_cost, payload_deleted.
  - apply elem_of_run_query. split.
    + apply (added_world_read (expensesCol (uid u)) payload w).
    + apply expenses_query_satisfied. unfold payload. cbn [Firestore.data].
      rewrite payload_deleted, payload_date. eauto.
Qed.

Lemma addExpense_then_fetchExpenses_witness :
  exists w' l w'',
    addExpense valid_expense sample_world = (Fulfilled tt, w')
    /\ fetchExpenses w' = (Fulfilled l, w'')
    /\ mkExpense "auto0" "Lunch" "2024-03-05" 12.5 false ∈ l.
Proof.
  apply (addExpense_then_fetchExpenses sample_world alice valid_expense " Lunch ").
  - split; [reflexivity | discriminate].
  - reflexivity.
  - reflexivity.
  - discriminate.
  - reflexivity.
  - reflexivity.
Defined.

(** X17: what [addExpense] stores. Whenever it is fulfilled, the new
    document has exactly five fields: a string description (the input
    trimmed), a string date ([String] of the input, whatever it was), a
    cost that is a number, not NaN and not below 0, [deleted = false], and
    the server's time as [createdAt]; the [deleted] of the input plays no
    part. *)
Theorem addExpense_stores (w w' : World) (u : User) (expense : ExpenseArg)
    (Hin : signed_in w u)
    (Hrun : addExpense expense w = (Fulfilled tt, w')) :
  exists s x,
    arg_description expense = Js.VStr s
    /\ x = Js.Number (arg_cost expense)
    /\ PrimFloat.is_nan x = false /\ (x <? 0)%float = false
    /\ Firestore.read (database w') (expenseRef u (autoIds w (added w)))
       = Some (<["description" := Js.VStr (Js.trim s)]>
               (<["date" := Js.VStr (Js.String (arg_date expense))]>
               (<["cost" := Js.VNum x]>
               (<["deleted" := Js.VBool false]>
               (<["createdAt" := Js.VTimestamp (serverTime w).1 (serverTime w).2]> ∅))))).
Proof.
  destruct (addExpense_fulfilled _ _ _ _ Hin Hrun) as (s & Hd & _ & Hnan & Hneg & ->).
  exists s, (Js.Number (arg_cost expense)).
  split; [exact Hd |]. split; [reflexivity |].
  split; [exact Hnan |]. split; [exact Hneg |].
  rewrite <- resolved_payload. apply added_world_read.
Qed.

Lemma addExpense_stores_witness :
  exists w',
    addExpense valid_expense sample_world = (Fulfilled tt, w')
    /\ Firestore.read (database w') (expenseRef alice "auto0")
       = Some (<["description" := Js.VStr "Lunch"]>
               (<["date" := Js.VStr "2024-03-05"]>
               (<["cost" := Js.VNum 12.5]>
               (<["deleted" := Js.VBool false]>
               (<["createdAt" := Js.VTimestamp 1700000000 0]> ∅))))).
Proof.
  assert (Hin : signed_in sample_world alice) by (split; [reflexivity | discriminate]).
  assert (Hrun : addExpense valid_expense sample_world
                 = (Fulfilled tt,
                    added_world (expensesCol "alice")
                      (expense_payload valid_expense (Js.trim " Lunch ")) sample_world)).
  { apply (addExpense_accepts sample_world alice valid_expense " Lunch " Hin);
      (reflexivity || discriminate). }
  eexists. split; [exact Hrun |].
  destruct (addExpense_stores _ _ alice valid_expense Hin Hrun)
    as (s & x & Hs & -> & _ & _ & Hread).
  injection Hs as <-. exact Hread.
Defined.

(** *** Expense CRUD: updates and deletions *)

(** X18: a partial update that holds only a truthy [deleted] does exactly
    what [deleteExpense] does: same outcome, same request, same world. *)
Theorem updateExpense_deleted_is_deleteExpense (w : World) (i : Js.Value)
    (next : ExpenseArg)
    (Hdesc : arg_description next = Js.VUndefined)
    (Hdate : arg_date next = Js.VUndefined)
    (Hcost : arg_cost next = Js.VUndefined)
    (Hdel : Js.Boolean (arg_deleted next) = true) :
  updateExpense i next w = deleteExpense i w.
Proof.
  unfold updateExpense, deleteExpense, bind.
  destruct (requireUid w) as [[uid|e] w0]; [| reflexivity].
  rewrite Hdesc, Hdate, Hcost, Hdel. simpl.
  assert (Hdef : Js.defined (arg_deleted next) = true)
    by (destruct (arg_deleted next); (discriminate || reflexivity)).
  rewrite Hdef. unfold assign_if. now rewrite insert_empty.
Qed.

Lemma updateExpense_deleted_is_deleteExpense_witness :
  updateExpense (Js.VStr "e1") mark_deleted sample_world
  = deleteExpense (Js.VStr "e1") sample_world.
Proof.
  apply (updateExpense_deleted_is_deleteExpense sample_world (Js.VStr "e1") mark_deleted);
    reflexivity.
Defined.

Lemma merge_deleted_twice b b' (old : gmap string Js.Value) :
  Firestore.merge_fields {[ "deleted" := Js.VBool b ]}
    (Firestore.merge_fields {[ "deleted" := Js.VBool b' ]} old)
  = <["deleted" := Js.VBool b]> old.
Proof.
  unfold Firestore.merge_fields.
  rewrite <- !insert_union_singleton_l. apply insert_insert_eq.
Qed.

(** X19: deleting twice is deleting once. For a resolved identity, a
    backend that accepts the writes and a stored record, a second
    [deleteExpense] of the same identifier is fulfilled too and leaves the
    stored documents as the first left them. *)
Theorem deleteExpense_idempotent (w : World) (u : User) (i : Js.Value)
    (old : gmap string Js.Value)
    (Hin : signed_in w u) (Hok : firestoreFault w = None)
    (Hold : Firestore.read (database w) (expenseRef u (Js.String i)) = Some old) :
  exists w1 w2,
    deleteExpense i w = (Fulfilled tt, w1)
    /\ deleteExpense i w1 = (Fulfilled tt, w2)
    /\ database w2 = database w1.
Proof.
  set (ref := expenseRef u (Js.String i)) in *.
  set (body := {[ "deleted" := Js.VBool true ]} : gmap string Js.Value).
  set (w1 := updated_world ref body old w).
  assert (Hin1 : signed_in w1 u) by exact Hin.
  assert (Hok1 : firestoreFault w1 = None) by exact Hok.
  assert (Hread1 : Firestore.read (database w1) ref
                   = Some (Firestore.merge_fields body old))
    by apply updated_world_read, Hold.
  exists w1. eexists.
  split; [rewrite (deleteExpense_signed_in _ _ _ Hin (stored_id _ _ _ Hold)); apply (updateDoc_ok _ _ _ _ Hok Hold) |].
  split; [rewrite (deleteExpense_signed_in _ _ _ Hin1 (stored_id _ _ _ Hold));
          apply (updateDoc_ok _ _ _ _ Hok1 Hread1) |].
  unfold updated_world at 1. cbn [database set_database].
  unfold body in *. rewrite merge_deleted_twice.
  apply put_same. rewrite Hread1. unfold Firestore.merge_fields.
  now rewrite <- insert_union_singleton_l.
Qed.

Lemma deleteExpense_idempotent_witness :
  exists w1 w2,
    deleteExpense (Js.VStr "e1") sample_world = (Fulfilled tt, w1)
    /\ deleteExpense (Js.VStr "e1") w1 = (Fulfilled tt, w2)
    /\ database w2 = database w1.
Proof.
  apply (deleteExpense_idempotent sample_world alice (Js.VStr "e1") coffee);
    [split; [reflexivity | discriminate] | reflexivity | reflexivity].
Defined.

Lemma updateDoc_missing ref fields w :
  firestoreFault w = None -> Firestore.read (database w) ref = None ->
  updateDoc ref fields w = (Rejected Firestore.not_found, send (UpdateDoc ref fields) w).
Proof.
  intros Hok Hnone. unfold updateDoc.
  rewrite (bind_fulfilled _ _ _ _ _ (firestore_call_ok _ _ Hok)).
  unfold bind, get. simpl. now rewrite Hnone.
Qed.

(** X20: an identifier that [doc] resolves to a reference [ref] under
    which nothing is stored. For a resolved identity and a backend that
    answers, [updateExpense] and [deleteExpense] are rejected with the
    database's "not-found" error and the stored documents are as before:
    neither creates a record. *)
Theorem update_of_missing_record (w : World) (u : User) (i : Js.Value)
    (ref : Firestore.DocumentReference)
    (Hin : signed_in w u) (Hok : firestoreFault w = None)
    (Hdoc : Firestore.doc ["users"; uid u : string; "expenses"; Js.String i] = inr ref)
    (Hnone : Firestore.read (database w) ref = None) :
  (forall next,
      exists w',
        updateExpense i next w = (Rejected Firestore.not_found, w')
        /\ database w' = database w)
  /\ exists w',
       deleteExpense i w = (Rejected Firestore.not_found, w')
       /\ database w' = database w.
Proof.
  split; [intros next |]; eexists.
  - split; [rewrite (updateExpense_resolved _ _ _ _ _ Hin Hdoc);
            apply (updateDoc_missing _ _ _ Hok Hnone) | reflexivity].
  - split; [rewrite (deleteExpense_resolved _ _ _ _ Hin Hdoc);
            apply (updateDoc_missing _ _ _ Hok Hnone) | reflexivity].
Qed.

Lemma update_of_missing_record_witness :
  exists w',
    deleteExpense (Js.VNum 42) sample_world = (Rejected Firestore.not_found, w')
    /\ Js.code Firestore.not_found = Some "not-found"
    /\ Firestore.read (database w') (expenseRef alice "42") = None.
Proof.
  destruct (update_of_missing_record sample_world alice (Js.VNum 42)
              (expenseRef alice "42"))
    as [_ (w' & Hrun & Hdb)];
    [split; [reflexivity | discriminate] | reflexivity | vm_compute; reflexivity
    | vm_compute; reflexivity |].
  exists w'. split; [exact Hrun |]. split; [reflexivity |].
  rewrite Hdb. vm_compute. reflexivity.
Defined.

(** X21: an update with none of the four properties. For a resolved
    identity, a backend that accepts the write and a stored record, it is
    fulfilled, sends its request with an empty body, and leaves the stored
    documents as they were. *)
Theorem updateExpense_of_nothing (w : World) (u : User) (i : Js.Value)
    (next : ExpenseArg) (old : gmap string Js.Value)
    (Hin : signed_in w u) (Hok : firestoreFault w = None)
    (Hold : Firestore.read (database w) (expenseRef u (Js.String i)) = Some old)
    (Hdesc : arg_description next = Js.VUndefined)
    (Hdate : arg_date next = Js.VUndefined)
    (Hcost : arg_cost next = Js.VUndefined)
    (Hdel : arg_deleted next = Js.VUndefined) :
  exists w',
    updateExpense i next w = (Fulfilled tt, w')
    /\ database w' = database w
    /\ requests w' = (requests w ++ [UpdateDoc (expenseRef u (Js.String i)) ∅])%list.
Proof.
  assert (Hbody : update_body next = ∅).
  { unfold update_body. now rewrite Hdesc, Hdate, Hcost, Hdel. }
  eexists.
  split; [rewrite (updateExpense_signed_in _ _ _ _ Hin (stored_id _ _ _ Hold));
          apply (updateDoc_ok _ _ _ _ Hok Hold) |].
  rewrite Hbody. split; [| reflexivity].
  unfold updated_world, Firestore.merge_fields. cbn [database set_database].
  rewrite (left_id_L ∅ (∪)). now apply put_same.
Qed.

Lemma updateExpense_of_nothing_witness :
  exists w',
    updateExpense (Js.VStr "e1") empty_update sample_world = (Fulfilled tt, w')
    /\ database w' = database sample_world.
Proof.
  destruct (updateExpense_of_nothing sample_world alice (Js.VStr "e1") empty_update coffee)
    as (w' & Hrun & Hdb & _);
    try reflexivity; [split; [reflexivity | discriminate] |].
  exists w'. split; [exact Hrun | exact Hdb].
Defined.

(** X22: a soft delete can be undone. For a resolved identity, a backend
    that accepts the writes and a stored record whose [deleted] is [false]:
    after [deleteExpense], an [updateExpense] that holds only a [deleted]
    that is defined and falsy restores the stored documents exactly, and
    [fetchExpenses] returns what it returned before the deletion. *)
Theorem deleteExpense_undone (w : World) (u : User) (i : Js.Value) (next : ExpenseArg)
    (old : gmap string Js.Value)
    (Hin : signed_in w u) (Hok : firestoreFault w = None)
    (Hold : Firestore.read (database w) (expenseRef u (Js.String i)) = Some old)
    (Hkept : old !! "deleted" = Some (Js.VBool false))
    (Hdesc : arg_description next = Js.VUndefined)
    (Hdate : arg_date next = Js.VUndefined)
    (Hcost : arg_cost next = Js.VUndefined)
    (Hdef : Js.defined (arg_deleted next) = true)
    (Hdel : Js.Boolean (arg_deleted next) = false) :
  exists w1 w2,
    deleteExpense i w = (Fulfilled tt, w1)
    /\ updateExpense i next w1 = (Fulfilled tt, w2)
    /\ database w2 = database w
    /\ (fetchExpenses w2).1 = (fetchExpenses w).1.
Proof.
  set (ref := expenseRef u (Js.String i)) in *.
  set (body := {[ "deleted" := Js.VBool true ]} : gmap string Js.Value).
  set (w1 := updated_world ref body old w).
  assert (Hin1 : signed_in w1 u) by exact Hin.
  assert (Hok1 : firestoreFault w1 = None) by exact Hok.
  assert (Hread1 : Firestore.read (database w1) ref
                   = Some (Firestore.merge_fields body old))
    by apply updated_world_read, Hold.
  assert (Hbody : update_body next = {[ "deleted" := Js.VBool false ]}).
  { unfold update_body. rewrite Hdesc, Hdate, Hcost, Hdef, Hdel. simpl.
    unfold assign_if. now rewrite insert_empty. }
  set (w2 := updated_world ref (update_body next) (Firestore.merge_fields body old) w1).
  assert (Hdb : database w2 = database w).
  { unfold w2, w1, updated_world. cbn [database set_database send].
    rewrite put_put, Hbody. unfold body in *. rewrite merge_deleted_twice.
    rewrite (insert_id old _ _ Hkept). now apply put_same. }
  exists w1, w2.
  split; [rewrite (deleteExpense_signed_in _ _ _ Hin (stored_id _ _ _ Hold)); apply (updateDoc_ok _ _ _ _ Hok Hold) |].
  split; [rewrite (updateExpense_signed_in _ _ _ _ Hin1 (stored_id _ _ _ Hold));
          apply (updateDoc_ok _ _ _ _ Hok1 Hread1) |].
  split; [exact Hdb |].
  rewrite !fetchExpenses_outcome. rewrite Hdb. reflexivity.
Qed.

Lemma deleteExpense_undone_witness :
  exists w1 w2,
    deleteExpense (Js.VStr "e1") sample_world = (Fulfilled tt, w1)
    /\ (fetchExpenses w1).1 = Fulfilled [mkExpense "e2" "true" "2024-02-01" 0 false]
    /\ updateExpense (Js.VStr "e1") mark_kept w1 = (Fulfilled tt, w2)
    /\ (fetchExpenses w2).1
       = Fulfilled [mkExpense "e2" "true" "2024-02-01" 0 false;
                    mkExpense "e1" "Coffee" "2024-01-01" 4.5 false].
Proof.
  assert (Hin : signed_in sample_world alice) by (split; [reflexivity | discriminate]).
  destruct (deleteExpense_undone sample_world alice (Js.VStr "e1") mark_kept coffee
              Hin eq_refl eq_refl eq_refl eq_refl eq_refl eq_refl eq_refl eq_refl)
    as (w1 & w2 & Hdel & Hupd & _ & Hfetch).
  exists w1, w2. split; [exact Hdel |].
  split.
  - rewrite (deleteExpense_signed_in sample_world alice (Js.VStr "e1") Hin eq_refl) in Hdel.
    rewrite (updateDoc_ok _ _ _ _ (eq_refl : firestoreFault sample_world = None)
               (eq_refl : Firestore.read (database sample_world)
                            (expenseRef alice (Js.String (Js.VStr "e1"))) = Some coffee))
      in Hdel.
    injection Hdel as <-. vm_compute. reflexivity.
  - split; [exact Hupd |]. rewrite Hfetch. vm_compute. reflexivity.
Defined.

(** *** Expense CRUD: a backend that refuses *)

Lemma getDocs_fault q w c m :
  firestoreFault w = Some (c, m) ->
  getDocs q w = (Rejected (Firestore.FirebaseError c m), send (GetDocs q) w).
Proof.
  intros H. unfold getDocs.
  now rewrite (bind_rejected _ _ _ _ _ (firestore_call_fault _ _ _ _ H)).
Qed.

Lemma addDoc_fault col payload w c m :
  firestoreFault w = Some (c, m) ->
  addDoc col payload w
  = (Rejected (Firestore.FirebaseError c m), send (AddDoc col payload) w).
Proof.
  intros H. unfold addDoc.
  now rewrite (bind_rejected _ _ _ _ _ (firestore_call_fault _ _ _ _ H)).
Qed.

(** X23: when the database refuses a call with [e], each CRUD function of
    a resolved identity is rejected with [e] itself, not wrapped (unlike
    [signIn] and [signOut]), after sending its one request, and stores
    nothing; for [updateExpense] and [deleteExpense] this is for an
    identifier that [doc] resolves to a reference, for [addExpense] for an
    input that passes its two checks. *)
Theorem crud_backend_refusal (w : World) (u : User) (c m : string)
    (Hin : signed_in w u) (Hfault : firestoreFault w = Some (c, m)) :
  fetchExpenses w
  = (Rejected (Firestore.FirebaseError c m), send (GetDocs (expenses_query u)) w)
  /\ (forall i next ref,
        Firestore.doc ["users"; uid u : string; "expenses"; Js.String i] = inr ref ->
        updateExpense i next w
        = (Rejected (Firestore.FirebaseError c m),
           send (UpdateDoc ref (update_body next)) w))
  /\ (forall i ref,
        Firestore.doc ["users"; uid u : string; "expenses"; Js.String i] = inr ref ->
        deleteExpense i w
        = (Rejected (Firestore.FirebaseError c m),
           send (UpdateDoc ref {[ "deleted" := Js.VBool true ]}) w))
  /\ (forall expense s,
        arg_description expense = Js.VStr s -> s <> "" ->
        Js.isNaN (Js.Number (arg_cost expense)) = false ->
        (Js.Number (arg_cost expense) <? 0)%float = false ->
        addExpense expense w
        = (Rejected (Firestore.FirebaseError c m),
           send (AddDoc (expensesCol (uid u)) (expense_payload expense (Js.trim s))) w)).
Proof.
  repeat split.
  - unfold fetchExpenses.
    rewrite (bind_fulfilled _ _ _ _ _ (requireUid_signed_in _ _ Hin)).
    fold (expenses_query u).
    now rewrite (bind_rejected _ _ _ _ _ (getDocs_fault _ _ _ _ Hfault)).
  - intros i next ref Hdoc. rewrite (updateExpense_resolved _ _ _ _ _ Hin Hdoc).
    unfold updateDoc.
    now rewrite (bind_rejected _ _ _ _ _ (firestore_call_fault _ _ _ _ Hfault)).
  - intros i ref Hdoc. rewrite (deleteExpense_resolved _ _ _ _ Hin Hdoc).
    unfold updateDoc.
    now rewrite (bind_rejected _ _ _ _ _ (firestore_call_fault _ _ _ _ Hfault)).
  - intros expense s Hd Hs Hnan Hneg. rewrite (addExpense_signed_in _ _ _ Hin).
    rewrite Hd, Hnan, Hneg. simpl.
    destruct (String.eqb_spec s "") as [Hempty | _]; [contradiction |]. simpl.
    now rewrite (addDoc_fault _ _ _ _ _ Hfault).
Qed.

Lemma crud_backend_refusal_witness :
  (fetchExpenses refusing_world).1 = Rejected permission_denied
  /\ (exists w',
        addExpense valid_expense refusing_world = (Rejected permission_denied, w')
        /\ database w' = database refusing_world)
  /\ (exists w',
        deleteExpense (Js.VStr "e1") refusing_world = (Rejected permission_denied, w')
        /\ Firestore.read (database w') (expenseRef alice "e1") = Some coffee).
Proof.
  destruct (crud_backend_refusal refusing_world alice "permission-denied"
              "Missing or insufficient permissions.")
    as (Hfetch & _ & Hdel & Hadd);
    [split; [reflexivity | discriminate] | reflexivity |].
  split; [now rewrite Hfetch |]. split.
  - eexists. split; [apply (Hadd valid_expense " Lunch "); (reflexivity || discriminate) |].
    reflexivity.
  - eexists. split; [apply (Hdel (Js.VStr "e1") (expenseRef alice "e1")); reflexivity |].
    reflexivity.
Defined.

(** *** Expense CRUD: identifiers that are paths *)

(** X26: an identifier that makes [doc] throw (the empty string, ["a/b"],
    one holding ["//"]: a path whose number of segments is odd, or an
    invalid one). For a resolved identity, [updateExpense] and
    [deleteExpense] are rejected with the error [doc] throws, which is the
    database client's "invalid-argument", and the world is as before: no
    request is sent. *)
Theorem crud_invalid_identifier (w : World) (u : User) (i : Js.Value) (e : Js.Error)
    (Hin : signed_in w u)
    (Hdoc : Firestore.doc ["users"; uid u : string; "expenses"; Js.String i] = inl e) :
  (forall next, updateExpense i next w = (Rejected e, w))
  /\ deleteExpense i w = (Rejected e, w)
  /\ Js.name e = "FirebaseError" /\ Js.code e = Some "invalid-argument".
Proof.
  split; [intros next; now apply (updateExpense_refused _ u) |].
  split; [now apply (deleteExpense_refused _ u) |].
  exact (doc_error _ _ Hdoc).
Qed.

Lemma crud_invalid_identifier_witness :
  deleteExpense (Js.VStr "a/b") sample_world
  = (Rejected (Firestore.invalid_argument odd_path_message), sample_world)
  /\ requests sample_world = []
  /\ updateExpense (Js.VStr "") mark_deleted sample_world
     = (Rejected (Firestore.invalid_argument empty_id_message), sample_world).
Proof.
  destruct (crud_invalid_identifier sample_world alice (Js.VStr "a/b")
              (Firestore.invalid_argument odd_path_message))
    as (_ & Hdel & _); [split; [reflexivity | discriminate] | reflexivity |].
  destruct (crud_invalid_identifier sample_world alice (Js.VStr "")
              (Firestore.invalid_argument empty_id_message))
    as (Hupd & _); [split; [reflexivity | discriminate] | reflexivity |].
  split; [exact Hdel |]. split; [reflexivity | apply Hupd].
Defined.

(** X27: the record acted upon is the one [doc] resolves the path to. For
    a resolved identity, a backend that accepts the write, and an
    identifier that [doc] resolves to a reference [ref] under which [old]
    is stored, [updateExpense] and [deleteExpense] are fulfilled and merge
    their fields into [old] at [ref]. So an identifier with a ['/'] at an
    end acts on the record named without it. *)
Theorem crud_identifier_as_path (w : World) (u : User) (i : Js.Value)
    (ref : Firestore.DocumentReference) (old : gmap string Js.Value)
    (Hin : signed_in w u) (Hok : firestoreFault w = None)
    (Hdoc : Firestore.doc ["users"; uid u : string; "expenses"; Js.String i] = inr ref)
    (Hold : Firestore.read (database w) ref = Some old) :
  (forall next,
      updateExpense i next w = (Fulfilled tt, updated_world ref (update_body next) old w))
  /\ deleteExpense i w
     = (Fulfilled tt, updated_world ref {[ "deleted" := Js.VBool true ]} old w).
Proof.
  split; [intros next |].
  - rewrite (updateExpense_resolved _ _ _ _ _ Hin Hdoc). now apply updateDoc_ok.
  - rewrite (deleteExpense_resolved _ _ _ _ Hin Hdoc). now apply updateDoc_ok.
Qed.

Lemma crud_identifier_as_path_witness :
  exists w',
    deleteExpense (Js.VStr "e1/") sample_world = (Fulfilled tt, w')
    /\ Firestore.read (database w') (expenseRef alice "e1")
       = Some (<["deleted" := Js.VBool true]> coffee).
Proof.
  destruct (crud_identifier_as_path sample_world alice (Js.VStr "e1/")
              (expenseRef alice "e1") coffee)
    as [_ Hdel];
    [split; [reflexivity | discriminate] | reflexivity | vm_compute; reflexivity
    | reflexivity |].
  eexists. split; [exact Hdel |]. vm_compute. reflexivity.
Defined.
